(** * iDeal LED BLE driver: a shallow embedding of [IdealLed.py]

    The development follows the layout of the Python module: the exception
    classes, the immutable [State] dataclass with its two decoders, the
    range checks, the discovery filter and the [Device] communication
    handler.  Python integers are unbounded and are modelled by [Z]; a
    [bytes] or [bytearray] value is a list of [Byte.byte]; a [str] is a
    [string]; a [dict] is a [gmap]. *)

From Stdlib Require Import ZArith Lia Bool Ascii String.
From Stdlib.Strings Require Import Byte.
From stdpp Require Import base option list strings pretty gmap.

Local Open Scope string_scope.
Local Open Scope list_scope.
Local Open Scope Z_scope.

(** ** Exceptions *)

Module Py.

(** The exception classes that the module can raise or let through.
    [UnicodeDecodeError] is a subclass of [ValueError]; [IdealLedTimeout]
    and [IdealLedBleakError] are the two subclasses of [IdealLedError]
    declared by the module. *)
Inductive exc : Type :=
| NameError (name : string)
| IndexError
| ValueError
| UnicodeDecodeError
| TypeError
| AssertionError
| asyncio_TimeoutError
| BleakError
| IdealLedTimeout (msg : string)
| IdealLedBleakError (msg : string).

Inductive result (A : Type) : Type :=
| Ok (a : A)
| Raise (e : exc).
Arguments Ok {A} a.
Arguments Raise {A} e.

#[export] Instance result_ret : MRet result := fun A a => Ok a.
#[export] Instance result_bind : MBind result := fun A B f m =>
  match m with
  | Ok a => f a
  | Raise e => Raise e
  end.

(** [isinstance(e, ValueError)] *)
Definition is_ValueError (e : exc) : bool :=
  match e with
  | ValueError | UnicodeDecodeError => true
  | _ => false
  end.

(** [isinstance(e, IdealLedError)] *)
Definition is_IdealLedError (e : exc) : bool :=
  match e with
  | IdealLedTimeout _ | IdealLedBleakError _ => true
  | _ => false
  end.

Abbreviation bytes := (list byte).

#[export] Instance byte_eq_dec : EqDecision byte := Byte.byte_eq_dec.

(** The integer that indexing a [bytes] object yields. *)
Definition byte_int (b : byte) : Z := Z.of_N (Byte.to_N b).

(** [data[i]] on a [bytes] object, for a non-negative constant [i]. *)
Definition bytes_getitem (data : bytes) (i : nat) : result Z :=
  match data !! i with
  | Some b => Ok (byte_int b)
  | None => Raise IndexError
  end.

(** [data[i:j]] on a [bytes] object, for constants [0 <= i <= j]; a slice
    never raises, it is cut at the end of the data. *)
Definition bytes_slice (data : bytes) (i j : nat) : bytes :=
  take (j - i) (drop i data).

(** [data.startswith(prefix)] *)
Fixpoint startswith (data prefix : bytes) : bool :=
  match prefix, data with
  | [], _ => true
  | p :: prefix', b :: data' => bool_decide (b = p) && startswith data' prefix'
  | _ :: _, [] => false
  end.

(** [databytes.decode("ASCII")]: every byte must be below 128. *)
Definition decode_ascii (databytes : bytes) : result string :=
  if forallb (fun b => byte_int b <? 128) databytes
  then Ok (string_of_list_byte databytes)
  else Raise UnicodeDecodeError.

(** [data[i]] on a [str], for a non-negative constant [i]. *)
Definition str_getitem (data : string) (i : nat) : result ascii :=
  match String.get i data with
  | Some c => Ok c
  | None => Raise IndexError
  end.

(** [data[i:j]] on a [str], for constants [0 <= i <= j]. *)
Definition str_slice (data : string) (i j : nat) : string :=
  String.substring i (j - i) data.

(** *** [int(text)] on ASCII text

    The grammar of the built-in: optional surrounding whitespace, an
    optional sign, then decimal digits with single underscores allowed
    between digits. *)

Definition is_space (c : ascii) : bool :=
  let n := N_of_ascii c in
  ((9 <=? n)%N && (n <=? 13)%N) || (n =? 32)%N.

Definition digit_value (c : ascii) : option Z :=
  let n := N_of_ascii c in
  if ((48 <=? n)%N && (n <=? 57)%N) then Some (Z.of_N n - 48) else None.

Definition is_digit (c : ascii) : bool :=
  match digit_value c with Some _ => true | None => false end.

Fixpoint lstrip (s : string) : string :=
  match s with
  | String c r => if is_space c then lstrip r else s
  | EmptyString => s
  end.

(** Scans the digits that follow the first one.  [prev_underscore] records
    that the character just read was an underscore; two in a row and a
    trailing one are refused.  Returns the value and the unread text. *)
Fixpoint scan_digits (prev_underscore : bool) (acc : Z) (s : string)
  : option (Z * string) :=
  match s with
  | String c r =>
      match digit_value c with
      | Some d => scan_digits false (acc * 10 + d) r
      | None =>
          if Ascii.eqb c "_"
          then (if prev_underscore then None else scan_digits true acc r)
          else (if prev_underscore then None else Some (acc, s))
      end
  | EmptyString => if prev_underscore then None else Some (acc, s)
  end.

Definition int_of_str (text : string) : result Z :=
  let s := lstrip text in
  let '(negative, s) :=
    match s with
    | String c r =>
        if Ascii.eqb c "+" then (false, r)
        else if Ascii.eqb c "-" then (true, r)
        else (false, s)
    | EmptyString => (false, s)
    end in
  match s with
  | String c r =>
      match digit_value c with
      | Some d =>
          match scan_digits false d r with
          | Some (v, rest) =>
              match lstrip rest with
              | EmptyString => Ok (if negative then - v else v)
              | String _ _ => Raise ValueError
              end
          | None => Raise ValueError
          end
      | None => Raise ValueError
      end
  | EmptyString => Raise ValueError
  end.

(** [int(c)] for a single character [c = data[i]]. *)
Definition int_of_char (c : ascii) : result Z :=
  int_of_str (String c EmptyString).

(** *** [bytearray.fromhex(text)]

    Pairs of hexadecimal digits; ASCII whitespace is skipped between
    pairs, never inside one. *)

Definition hex_value (c : ascii) : option N :=
  let n := N_of_ascii c in
  if ((48 <=? n) && (n <=? 57))%N then Some (n - 48)%N
  else if ((97 <=? n) && (n <=? 102))%N then Some (n - 87)%N
  else if ((65 <=? n) && (n <=? 70))%N then Some (n - 55)%N
  else None.

Fixpoint fromhex (text : string) : result bytes :=
  match text with
  | EmptyString => Ok []
  | String c r =>
      if is_space c then fromhex r
      else
        match r with
        | String c' r' =>
            match hex_value c, hex_value c' with
            | Some top, Some bot =>
                match Byte.of_N (top * 16 + bot), fromhex r' with
                | Some b, Ok tl => Ok (b :: tl)
                | _, Raise e => Raise e
                | None, _ => Raise ValueError
                end
            | _, _ => Raise ValueError
            end
        | EmptyString => Raise ValueError
        end
  end.

End Py.
Export Py.

(** ** Module constants *)

Definition COMMAND_LIGHT_ON_HEX : string := "84dd5042374150897ac82f39110968a8".
Definition COMMAND_LIGHT_OFF_HEX : string := "79d1dba40919c246a8580ae7d11b7884".

(** A [UUID] object is represented by what [str()] prints for it. *)
Record UUID : Type := mkUUID { uuid_str : string }.

Definition UUID_RX : UUID := mkUUID "d44bc439-abfd-45a2-b575-925416129600".

Definition DEVICE_NAME : string := "IDEAL_LED".
Definition ANNOUNCE_PREFIX : bytes := list_byte_of_string "HOODFJAR".

(** [int.from_bytes(b, "little")] *)
Fixpoint int_from_bytes_little (b : bytes) : Z :=
  match b with
  | [] => 0
  | x :: r => byte_int x + 256 * int_from_bytes_little r
  end.

Definition ANNOUNCE_MANUFACTURER : Z :=
  int_from_bytes_little (bytes_slice ANNOUNCE_PREFIX 0 2).

(** ** The [State] dataclass *)

Record State : Type := mkState {
  light_on : bool;
  after_cooking_fan_speed : Z;
  after_cooking_on : bool;
  carbon_filter_available : bool;
  fan_speed : Z;
  grease_filter_full : bool;
  carbon_filter_full : bool;
  dim_level : Z;
  periodic_venting : Z;
  periodic_venting_on : bool;
  rssi : Z
}.

(** [State()]: every field at its declared default. *)
Definition State_default : State :=
  mkState false 0 false false 0 false false 0 0 false 0.

(** One keyword argument [field=value] of [dataclasses.replace]. *)
Inductive change : Type :=
| kw_light_on (v : bool)
| kw_after_cooking_fan_speed (v : Z)
| kw_after_cooking_on (v : bool)
| kw_carbon_filter_available (v : bool)
| kw_fan_speed (v : Z)
| kw_grease_filter_full (v : bool)
| kw_carbon_filter_full (v : bool)
| kw_dim_level (v : Z)
| kw_periodic_venting (v : Z)
| kw_periodic_venting_on (v : bool)
| kw_rssi (v : Z).

Definition kw_name (c : change) : string :=
  match c with
  | kw_light_on _ => "light_on"
  | kw_after_cooking_fan_speed _ => "after_cooking_fan_speed"
  | kw_after_cooking_on _ => "after_cooking_on"
  | kw_carbon_filter_available _ => "carbon_filter_available"
  | kw_fan_speed _ => "fan_speed"
  | kw_grease_filter_full _ => "grease_filter_full"
  | kw_carbon_filter_full _ => "carbon_filter_full"
  | kw_dim_level _ => "dim_level"
  | kw_periodic_venting _ => "periodic_venting"
  | kw_periodic_venting_on _ => "periodic_venting_on"
  | kw_rssi _ => "rssi"
  end.

Definition set_field (s : State) (c : change) : State :=
  let '(mkState lo acfs aco cfa fs gff cff dl pv pvo rs) := s in
  match c with
  | kw_light_on v => mkState v acfs aco cfa fs gff cff dl pv pvo rs
  | kw_after_cooking_fan_speed v => mkState lo v aco cfa fs gff cff dl pv pvo rs
  | kw_after_cooking_on v => mkState lo acfs v cfa fs gff cff dl pv pvo rs
  | kw_carbon_filter_available v => mkState lo acfs aco v fs gff cff dl pv pvo rs
  | kw_fan_speed v => mkState lo acfs aco cfa v gff cff dl pv pvo rs
  | kw_grease_filter_full v => mkState lo acfs aco cfa fs v cff dl pv pvo rs
  | kw_carbon_filter_full v => mkState lo acfs aco cfa fs gff v dl pv pvo rs
  | kw_dim_level v => mkState lo acfs aco cfa fs gff cff v pv pvo rs
  | kw_periodic_venting v => mkState lo acfs aco cfa fs gff cff dl v pvo rs
  | kw_periodic_venting_on v => mkState lo acfs aco cfa fs gff cff dl pv v rs
  | kw_rssi v => mkState lo acfs aco cfa fs gff cff dl pv pvo v
  end.

(** [dataclasses.replace(obj, **kwargs)]: a copy of [obj] with the named
    fields replaced. *)
Definition replace (obj : State) (kwargs : list change) : State :=
  foldl set_field obj kwargs.

(** The call [replace(self, k1=v1, ..., **changes)]: a key of [changes]
    that repeats one of the keywords written at the call site makes the call
    itself raise [TypeError]. *)
Definition call_replace (self : State) (explicit changes : list change)
  : result State :=
  if existsb (fun c => bool_decide (kw_name c ∈ kw_name <$> explicit)) changes
  then Raise TypeError
  else Ok (replace self (explicit ++ changes)).

Definition _range_check_dim (value fallback : Z) : Z :=
  if (value >=? 0) && (value <=? 100) then value else fallback.

Definition _range_check_period (value fallback : Z) : Z :=
  if (value >=? 0) && (value <? 60) then value else fallback.

Definition _bittest (data bit : Z) : bool :=
  negb (Z.land data (Z.shiftl 1 bit) =? 0).

(** [State.replace_from_tx_char]: the arguments of [replace] are evaluated
    in the order they are written, so the first failing one decides the
    exception. *)
Definition replace_from_tx_char (self : State) (databytes : bytes)
    (changes : list change) : result State :=
  data ← decode_ascii databytes;
  c4 ← str_getitem data 4;
  fan ← int_of_char c4;
  c5 ← str_getitem data 5;
  c6 ← str_getitem data 6;
  c7 ← str_getitem data 7;
  c8 ← str_getitem data 8;
  c9 ← str_getitem data 9;
  dim ← int_of_str (str_slice data 10 13);
  period ← int_of_str (str_slice data 13 15);
  call_replace self
    [ kw_fan_speed fan;
      kw_light_on (Ascii.eqb c5 "L");
      kw_after_cooking_on (Ascii.eqb c6 "N");
      kw_carbon_filter_available (Ascii.eqb c7 "C");
      kw_grease_filter_full (Ascii.eqb c8 "F");
      kw_carbon_filter_full (Ascii.eqb c9 "K");
      kw_dim_level (_range_check_dim dim (dim_level self));
      kw_periodic_venting (_range_check_period period (periodic_venting self)) ]
    changes.

(** [State.replace_from_manufacture_data] *)
Definition replace_from_manufacture_data (self : State) (data : bytes)
    (changes : list change) : result State :=
  b10 ← bytes_getitem data 10;
  let light_on_bit := _bittest b10 0 in
  b13 ← bytes_getitem data 13;
  let dim := _range_check_dim b13 (dim_level self) in
  let light_on_new :=
    if light_on_bit && negb (light_on self) && (dim <? dim_level self)
    then false else light_on_bit in
  b8 ← bytes_getitem data 8;
  b9 ← bytes_getitem data 9;
  b10' ← bytes_getitem data 10;
  b10'' ← bytes_getitem data 10;
  b11 ← bytes_getitem data 11;
  b11' ← bytes_getitem data 11;
  b11'' ← bytes_getitem data 11;
  b14 ← bytes_getitem data 14;
  call_replace self
    [ kw_fan_speed b8;
      kw_after_cooking_fan_speed b9;
      kw_light_on light_on_new;
      kw_after_cooking_on (_bittest b10' 1);
      kw_periodic_venting_on (_bittest b10'' 2);
      kw_grease_filter_full (_bittest b11 0);
      kw_carbon_filter_full (_bittest b11' 1);
      kw_carbon_filter_available (_bittest b11'' 2);
      kw_dim_level dim;
      kw_periodic_venting (_range_check_period b14 (periodic_venting self)) ]
    changes.

(** ** The discovery filter *)

(** The two [bleak] objects handed to the filter, with the attributes the
    module reads. *)
Record BLEDevice : Type := mkBLEDevice {
  ble_address : string;
  name : option string
}.

Record AdvertisementData : Type := mkAdvertisementData {
  service_uuids : list string;
  manufacturer_data : gmap Z bytes;
  adv_rssi : Z
}.

(** The data objects a module-level name can be bound to. *)
Inductive pyobj : Type :=
| PStr (s : string)
| PBytes (b : bytes)
| PInt (z : Z)
| PUUID (u : UUID).

Definition hex_digit (n : N) : ascii :=
  ascii_of_N (if (n <? 10)%N then 48 + n else 87 + n).

(** [repr(b)] of a [bytes] object. *)
Definition bytes_repr (b : bytes) : string :=
  let has c := existsb (fun x => bool_decide (x = c)) b in
  let quote : byte := if has "'"%byte && negb (has x22%byte) then x22%byte else "'"%byte in
  let esc (x : byte) : string :=
    let n := Byte.to_N x in
    if bool_decide (x = quote) || bool_decide (x = "\"%byte)
    then String "\" (String (ascii_of_byte x) EmptyString)
    else if (n =? 9)%N then "\t"
    else if (n =? 10)%N then "\n"
    else if (n =? 13)%N then "\r"
    else if (n <? 32)%N || (127 <=? n)%N
    then String "\" (String "x" (String (hex_digit (n / 16)) (String (hex_digit (n mod 16)) EmptyString)))
    else String (ascii_of_byte x) EmptyString in
  let q := String (ascii_of_byte quote) EmptyString in
  ("b" ++ q ++ String.concat EmptyString (esc <$> b) ++ q)%string.

(** [str(obj)] *)
Definition py_str (obj : pyobj) : string :=
  match obj with
  | PStr s => s
  | PBytes b => bytes_repr b
  | PInt z => pretty z
  | PUUID u => uuid_str u
  end.

Section Namespace.

(** The module's global namespace at the time a function runs. *)
Variable globals : gmap string pyobj.

(** Reading a global name: an unbound one raises [NameError]. *)
Definition load_global (id : string) : result pyobj :=
  match globals !! id with
  | Some v => Ok v
  | None => Raise (NameError id)
  end.

(** [device_filter].  [UUID_SERVICE] is looked up in the namespace when the
    first test runs; [DEVICE_NAME], [ANNOUNCE_MANUFACTURER] and
    [ANNOUNCE_PREFIX] are the constants bound above. *)
Definition device_filter (device : BLEDevice)
    (advertisement_data : AdvertisementData) : result bool :=
  let uuids := service_uuids advertisement_data in
  uuid_service ← load_global "UUID_SERVICE";
  if bool_decide (py_str uuid_service ∈ uuids) then Ok true
  else if bool_decide (name device = Some DEVICE_NAME) then Ok true
  else
    let data :=
      default [] (manufacturer_data advertisement_data !! ANNOUNCE_MANUFACTURER) in
    if startswith data (drop 2 ANNOUNCE_PREFIX) then Ok true
    else Ok false.

End Namespace.

(** The data constants that [IdealLed.py] binds at module level.  Its other
    module-level names are the imports, [_LOGGER], the exception classes,
    [State], [Device] and the four functions. *)
Definition module_globals : gmap string pyobj :=
  list_to_map
    [ ("COMMAND_LIGHT_ON_HEX", PStr COMMAND_LIGHT_ON_HEX);
      ("COMMAND_LIGHT_OFF_HEX", PStr COMMAND_LIGHT_OFF_HEX);
      ("UUID_RX", PUUID UUID_RX);
      ("DEVICE_NAME", PStr DEVICE_NAME);
      ("ANNOUNCE_PREFIX", PBytes ANNOUNCE_PREFIX);
      ("ANNOUNCE_MANUFACTURER", PInt ANNOUNCE_MANUFACTURER) ].

(** ** The [Device] communication handler *)

(** What [BleakClient(address_or_ble_device, timeout=30)] is built from. *)
Inductive target : Type :=
| ByAddress (a : string)
| ByDevice (d : BLEDevice).

Record BleakClient : Type := mkBleakClient {
  client_target : target;
  client_timeout : Z
}.

(** The attributes of a [Device] instance.  [_lock] is [true] while the
    [asyncio.Lock] is held; [_client_stack] lists the context managers the
    [AsyncExitStack] has entered, the latest first. *)
Record Device : Type := mkDevice {
  address : string;
  _keycode : bytes;
  state : State;
  _lock : bool;
  _client : option BleakClient;
  _client_count : Z;
  _client_stack : list BleakClient
}.

(** [Device.__init__] *)
Definition Device_init (address : string) (keycode : bytes) : Device :=
  mkDevice address keycode State_default false None 0 [].

(** The default value of the [keycode] parameter. *)
Definition default_keycode : bytes := list_byte_of_string "1234".

(** What a method does that its caller or the radio can observe, besides
    the attributes it assigns: the records handed to [_LOGGER] and the calls
    made on the [bleak] client. *)
Inductive level : Type := DEBUG | WARNING.

Inductive event : Type :=
| Log (lvl : level) (msg : string)
| LinkOpen (c : BleakClient)
| LinkClose (c : BleakClient)
| GattRead (char : UUID)
| GattWrite (char : UUID) (data : bytes) (response : bool).

Record World : Type := mkWorld {
  dev : Device;
  trace : list event
}.

(** A method body: it reads and assigns the attributes of [self], appends to
    the trace, and either returns or raises.  The attributes assigned before
    an exception is raised stay assigned. *)
Definition M (A : Type) : Type := World → result A * World.

#[export] Instance M_ret : MRet M := fun A a w => (Ok a, w).
#[export] Instance M_bind : MBind M := fun A B f m w =>
  match m w with
  | (Ok a, w') => f a w'
  | (Raise e, w') => (Raise e, w')
  end.

Definition raise {A} (e : exc) : M A := fun w => (Raise e, w).
Definition lift {A} (r : result A) : M A := fun w => (r, w).
Definition self : M Device := fun w => (Ok (dev w), w).
Definition assign (f : Device → Device) : M unit :=
  fun w => (Ok tt, mkWorld (f (dev w)) (trace w)).
Definition emit (e : event) : M unit :=
  fun w => (Ok tt, mkWorld (dev w) (trace w ++ [e])).
Definition debug (msg : string) : M unit := emit (Log DEBUG msg).
Definition warning (msg : string) : M unit := emit (Log WARNING msg).

Definition set_state (s : State) (d : Device) : Device :=
  mkDevice (address d) (_keycode d) s (_lock d) (_client d) (_client_count d)
    (_client_stack d).
Definition set_lock (b : bool) (d : Device) : Device :=
  mkDevice (address d) (_keycode d) (state d) b (_client d) (_client_count d)
    (_client_stack d).
Definition set_client (c : option BleakClient) (d : Device) : Device :=
  mkDevice (address d) (_keycode d) (state d) (_lock d) c (_client_count d)
    (_client_stack d).
Definition set_client_count (n : Z) (d : Device) : Device :=
  mkDevice (address d) (_keycode d) (state d) (_lock d) (_client d) n
    (_client_stack d).
Definition set_client_stack (l : list BleakClient) (d : Device) : Device :=
  mkDevice (address d) (_keycode d) (state d) (_lock d) (_client d)
    (_client_count d) l.

(** [assert self._client, "Device must be connected"] *)
Definition assert_connected : M unit :=
  d ← self;
  match _client d with
  | Some _ => mret tt
  | None => raise AssertionError
  end.

(** [Device.characteristic_callback] *)
Definition characteristic_callback (data : bytes) : M unit :=
  debug "Characteristic callback: %s";;
  d ← self;
  if bool_decide (bytes_slice data 0 4 ≠ _keycode d)
  then warning "Wrong keycode in data %s"
  else
    s ← lift (replace_from_tx_char (state d) data []);
    assign (set_state s);;
    debug "Characteristic callback result: %s".

(** [Device.detection_callback_raw] *)
Definition detection_callback_raw (data : bytes) (rssi : Z) : M unit :=
  if bool_decide (bytes_slice data 0 8 ≠ ANNOUNCE_PREFIX)
  then debug "Missing key in manufacturer data %s"
  else
    d ← self;
    s ← lift (replace_from_manufacture_data (state d) data [kw_rssi rssi]);
    assign (set_state s);;
    debug "Detection callback result: %s".

(** [Device.detection_callback] *)
Definition detection_callback (device : BLEDevice)
    (advertisement_data : AdvertisementData) : M unit :=
  match manufacturer_data advertisement_data !! ANNOUNCE_MANUFACTURER with
  | None => mret tt
  | Some data =>
      detection_callback_raw (bytes_slice ANNOUNCE_PREFIX 0 2 ++ data)
        (adv_rssi advertisement_data)
  end.

(** [Device.update].  [reading] is what awaiting [read_gatt_char] gives:
    the bytes read, or the exception the client raises. *)
Definition update (reading : result bytes) : M unit :=
  assert_connected;;
  emit (GattRead UUID_RX);;
  databytes ←
    match reading with
    | Ok b => mret b
    | Raise asyncio_TimeoutError =>
        debug "Timeout on update";; raise (IdealLedTimeout EmptyString)
    | Raise BleakError =>
        debug "Failed to update";; raise (IdealLedBleakError "Failed to update device")
    | Raise e => raise e
    end;
  characteristic_callback databytes.

(** [Device.send_command].  [writing] is what awaiting [write_gatt_char]
    gives. *)
Definition send_command (cmd : string) (writing : result unit) : M unit :=
  assert_connected;;
  data ← lift (fromhex cmd);
  emit (GattWrite UUID_RX data true);;
  match writing with
  | Ok _ => mret tt
  | Raise asyncio_TimeoutError =>
      debug "Timeout on write";; raise (IdealLedTimeout EmptyString)
  | Raise BleakError =>
      debug "Failed to write";; raise (IdealLedBleakError "Failed to write")
  | Raise e => raise e
  end;;
  d ← self;
  if bool_decide (cmd = COMMAND_LIGHT_ON_HEX)
  then assign (set_state (replace (state d) [kw_light_on true]))
  else if bool_decide (cmd = COMMAND_LIGHT_OFF_HEX)
  then assign (set_state (replace (state d) [kw_light_on false]))
  else mret tt.

(** *** [Device.connect]

    The context manager runs three sections, each under [self._lock]: the
    one before the [yield], the [yield] itself, and the [finally] clause.
    Nothing else assigns [_client], [_client_count] or [_client_stack], and
    what may run while a section awaits the radio (the two callbacks)
    assigns [state] only, so each section is one transition of these
    attributes. *)

(** The section before the [yield].  [opening] is what awaiting
    [enter_async_context(BleakClient(...))] gives; it is awaited only when
    there is no client yet. *)
Definition connect_enter (address_or_ble_device : option target)
    (opening : result unit) : M unit :=
  d ← self;
  let address_or_ble_device :=
    match address_or_ble_device with
    | None => ByAddress (address d)
    | Some t => t
    end in
  match _client d with
  | None =>
      debug "Connecting";;
      let c := mkBleakClient address_or_ble_device 30 in
      match opening with
      | Ok _ =>
          emit (LinkOpen c);;
          assign (fun d => set_client_stack (c :: _client_stack d) d);;
          assign (set_client (Some c))
      | Raise asyncio_TimeoutError =>
          debug "Timeout on connect";; raise (IdealLedTimeout "Timeout on connect")
      | Raise BleakError =>
          debug "Error on connect";; raise (IdealLedBleakError "Error on connect")
      | Raise e => raise e
      end
  | Some _ => debug "Connection reused"
  end;;
  assign (fun d => set_client_count (_client_count d + 1) d).

(** The [finally] clause.  [closing] is what awaiting
    [pop_all().aclose()] gives. *)
Definition connect_exit (closing : result unit) : M unit :=
  assign (fun d => set_client_count (_client_count d - 1) d);;
  d ← self;
  if bool_decide (_client_count d = 0)
  then
    assign (set_client None);;
    debug "Disconnected";;
    let entered := _client_stack d in
    assign (set_client_stack []);;
    foldr (fun c k => emit (LinkClose c);; k) (mret tt) entered;;
    lift closing
  else mret tt.

(** ** Vocabulary of the statements *)

(** The valid ranges of [dim_level] and of [periodic_venting]. *)
Definition dim_valid (v : Z) : Prop := 0 <= v <= 100.
Definition period_valid (v : Z) : Prop := 0 <= v < 60.

(** The keywords [replace_from_manufacture_data] passes to [replace], from
    the integers read at bytes 8, 9, 10, 11, 13 and 14. *)
Definition manufacture_fields (self : State) (b8 b9 b10 b11 b13 b14 : Z)
  : list change :=
  let light_on_bit := _bittest b10 0 in
  let dim := _range_check_dim b13 (dim_level self) in
  [ kw_fan_speed b8;
    kw_after_cooking_fan_speed b9;
    kw_light_on
      (if light_on_bit && negb (light_on self) && (dim <? dim_level self)
       then false else light_on_bit);
    kw_after_cooking_on (_bittest b10 1);
    kw_periodic_venting_on (_bittest b10 2);
    kw_grease_filter_full (_bittest b11 0);
    kw_carbon_filter_full (_bittest b11 1);
    kw_carbon_filter_available (_bittest b11 2);
    kw_dim_level dim;
    kw_periodic_venting (_range_check_period b14 (periodic_venting self)) ].

(** The only keyword the advertisement decoder leaves to its caller. *)
Definition rssi_only (changes : list change) : Prop :=
  Forall (fun c => kw_name c = "rssi") changes.

(** The keywords [replace_from_tx_char] passes to [replace], from the
    number at byte 4, the characters at bytes 5 to 9 and the two numbers
    that follow. *)
Definition tx_fields (self : State) (fan : Z) (c5 c6 c7 c8 c9 : ascii)
    (dim period : Z) : list change :=
  [ kw_fan_speed fan;
    kw_light_on (Ascii.eqb c5 "L");
    kw_after_cooking_on (Ascii.eqb c6 "N");
    kw_carbon_filter_available (Ascii.eqb c7 "C");
    kw_grease_filter_full (Ascii.eqb c8 "F");
    kw_carbon_filter_full (Ascii.eqb c9 "K");
    kw_dim_level (_range_check_dim dim (dim_level self));
    kw_periodic_venting (_range_check_period period (periodic_venting self)) ].

(** The record [characteristic_callback] logs first. *)
Definition entered_log : event := Log DEBUG "Characteristic callback: %s".

(** Both ranged fields of a State are within their ranges. *)
Definition State_valid (s : State) : Prop :=
  dim_valid (dim_level s) ∧ period_valid (periodic_venting s).

(** The positions of the payload that hold the digits of a number. *)
Definition numeric_positions : list nat := [4; 10; 11; 12; 13; 14]%nat.

(** The statement that any non-digit at one of these positions makes the
    update raise and leaves the State as it was. *)
Definition non_digit_always_raises : Prop :=
  ∀ (w : World) (data : bytes) (i : nat) (b : byte),
    bytes_slice data 0 4 = _keycode (dev w) →
    i ∈ numeric_positions →
    data !! i = Some b →
    is_digit (ascii_of_byte b) = false →
    ∃ e w',
      characteristic_callback data w = (Raise e, w')
      ∧ state (dev w') = state (dev w).

(** What [send_command] makes of an exception of the client. *)
Definition write_failure (e : exc) : exc * list event :=
  match e with
  | asyncio_TimeoutError =>
      (IdealLedTimeout EmptyString, [Log DEBUG "Timeout on write"])
  | BleakError =>
      (IdealLedBleakError "Failed to write", [Log DEBUG "Failed to write"])
  | _ => (e, [])
  end.

(** The State after a command was written. *)
Definition after_command (cmd : string) (s : State) : State :=
  if bool_decide (cmd = COMMAND_LIGHT_ON_HEX) then replace s [kw_light_on true]
  else if bool_decide (cmd = COMMAND_LIGHT_OFF_HEX) then replace s [kw_light_on false]
  else s.

(** [s'] is [s] but for its [light_on] field. *)
Definition same_but_light_on (s s' : State) : Prop :=
  s' = set_field s (kw_light_on (light_on s')).

(** A device on which some context manager has opened the link. *)
Definition connected_device : Device :=
  let c := mkBleakClient (ByAddress "00:11:22:33:44:55") 30 in
  mkDevice "00:11:22:33:44:55" default_keycode
    (mkState true 1 true true 2 true false 40 10 true (-60))
    true (Some c) 1 [c].

(** The target of the client: the argument of [connect], or the address
    of the device when there is none. *)
Definition requested (t : option target) (d : Device) : target :=
  match t with
  | None => ByAddress (address d)
  | Some t => t
  end.

(** What [connect] makes of an exception of the client. *)
Definition connect_failure (e : exc) : exc * list event :=
  match e with
  | asyncio_TimeoutError =>
      (IdealLedTimeout "Timeout on connect", [Log DEBUG "Timeout on connect"])
  | BleakError =>
      (IdealLedBleakError "Error on connect", [Log DEBUG "Error on connect"])
  | _ => (e, [])
  end.

(** The methods of [Device] other than [connect]. *)
Inductive device_method : M unit → Prop :=
| method_characteristic_callback data :
    device_method (characteristic_callback data)
| method_detection_callback device advertisement_data :
    device_method (detection_callback device advertisement_data)
| method_detection_callback_raw data rssi :
    device_method (detection_callback_raw data rssi)
| method_update reading :
    device_method (update reading)
| method_send_command cmd writing :
    device_method (send_command cmd writing).

(** The attributes of the connection are the same in [d] and [d']. *)
Definition same_connection (d d' : Device) : Prop :=
  _lock d' = _lock d ∧ _client d' = _client d
  ∧ _client_count d' = _client_count d ∧ _client_stack d' = _client_stack d.

(** One device and the context managers of [connect] on it.  [holders]
    counts those that ran their first section and not yet their [finally]
    clause.  The sections of [connect] start with the lock free; the body of
    a holder takes it and gives it back. *)
Inductive step : World * nat → World * nat → Prop :=
| step_connect_enter t opening w w' holders :
    _lock (dev w) = false →
    connect_enter t opening w = (Ok tt, w') →
    step (w, holders) (w', S holders)
| step_connect_failed t opening e w w' holders :
    _lock (dev w) = false →
    connect_enter t opening w = (Raise e, w') →
    step (w, holders) (w', holders)
| step_yield w holders :
    _lock (dev w) = false → (0 < holders)%nat →
    step (w, holders) (mkWorld (set_lock true (dev w)) (trace w), holders)
| step_resume w holders :
    _lock (dev w) = true →
    step (w, holders) (mkWorld (set_lock false (dev w)) (trace w), holders)
| step_connect_exit closing r w w' holders :
    _lock (dev w) = false →
    connect_exit closing w = (r, w') →
    step (w, S holders) (w', holders)
| step_method m r w w' holders :
    device_method m →
    m w = (r, w') →
    step (w, holders) (w', holders).

(** The states a device gets into, starting from [Device.__init__]. *)
Definition reachable (sys : World * nat) : Prop :=
  ∃ address keycode, rtc step (mkWorld (Device_init address keycode) [], 0%nat) sys.

(** The count is the number of holders, there is a client exactly when
    the count is positive, and the exit stack holds that client alone. *)
Definition counted (sys : World * nat) : Prop :=
  let d := dev sys.1 in
  _client_count d = Z.of_nat sys.2
  ∧ (is_Some (_client d) ↔ 0 < _client_count d)
  ∧ _client_stack d = option_list (_client d).

(** What [update] makes of an exception of the client. *)
Definition read_failure (e : exc) : exc * list event :=
  match e with
  | asyncio_TimeoutError =>
      (IdealLedTimeout EmptyString, [Log DEBUG "Timeout on update"])
  | BleakError =>
      (IdealLedBleakError "Failed to update device", [Log DEBUG "Failed to update"])
  | _ => (e, [])
  end.



(** ** The discovery flow ([config_flow.py]) *)

(** A discovered service info, with the two attributes the flow reads. *)
Record BluetoothServiceInfoBleak : Type := mkServiceInfo {
  device : BLEDevice;
  advertisement : AdvertisementData
}.

(** [_async_has_devices].  [service_infos] is what
    [async_discovered_service_info(hass)] returns; [globals] is the
    namespace of the module that defines [device_filter]. *)
Fixpoint _async_has_devices (globals : gmap string pyobj)
    (service_infos : list BluetoothServiceInfoBleak) : result bool :=
  match service_infos with
  | [] => Ok false
  | service_info :: rest =>
      device_filter globals (device service_info) (advertisement service_info)
        ≫= fun found : bool =>
             if found then Ok true else _async_has_devices globals rest
  end.


(** While a holder is in the body of its [async with], there are holders. *)
Definition body_held (sys : World * nat) : Prop :=
  _lock (dev sys.1) = true → (0 < sys.2)%nat.


(** * Properties *)

(** ** Sample runs of the definitions *)

Example int_of_str_plain : int_of_str "050" = Ok 50.
Proof. reflexivity. Qed.
Example int_of_str_blank : int_of_str " 50" = Ok 50.
Proof. reflexivity. Qed.
Example int_of_str_neg : int_of_str "-50" = Ok (-50).
Proof. reflexivity. Qed.
Example int_of_str_us : int_of_str "5_0" = Ok 50.
Proof. reflexivity. Qed.
Example int_of_str_us2 : int_of_str "50_" = Raise ValueError.
Proof. reflexivity. Qed.
Example int_of_str_sign_gap : int_of_str "+ 5" = Raise ValueError.
Proof. reflexivity. Qed.
Example int_of_str_empty : int_of_str EmptyString = Raise ValueError.
Proof. reflexivity. Qed.
Example fromhex_ex : fromhex "84 dd" = Ok [x84; xdd]%byte.
Proof. reflexivity. Qed.
Example fromhex_odd : fromhex "84d" = Raise ValueError.
Proof. reflexivity. Qed.

Example ANNOUNCE_MANUFACTURER_value : ANNOUNCE_MANUFACTURER = 20296.
Proof. reflexivity. Qed.

Example tx_char_example :
  replace_from_tx_char State_default (list_byte_of_string "12343LNCFK05030") []
  = Ok (mkState true 0 true true 3 true true 50 30 false 0).
Proof. vm_compute. reflexivity. Qed.

Example manufacture_example :
  replace_from_manufacture_data State_default
    (ANNOUNCE_PREFIX ++ [x02; x01; x07; x05; x00; x28; x0a]%byte) [kw_rssi (-60)]
  = Ok (mkState true 1 true true 2 true false 40 10 true (-60)).
Proof. vm_compute. reflexivity. Qed.

(** ** Keyword replacement *)

Lemma call_replace_Ok self explicit changes s' :
  call_replace self explicit changes = Ok s' →
  s' = replace self (explicit ++ changes)
  ∧ Forall (fun c => kw_name c ∉ kw_name <$> explicit) changes.
Proof.
  unfold call_replace.
  destruct (existsb _ changes) eqn:E; [discriminate|].
  intros [= <-]. split; [reflexivity|].
  apply Forall_forall. intros c Hc Hin.
  assert (existsb (fun c => bool_decide (kw_name c ∈ kw_name <$> explicit)) changes = true)
    as E'; [|congruence].
  apply existsb_exists. exists c. split.
  - by apply list_elem_of_In.
  - by apply bool_decide_eq_true.
Qed.

Lemma call_replace_free self explicit changes :
  Forall (fun c => kw_name c ∉ kw_name <$> explicit) changes →
  call_replace self explicit changes = Ok (replace self (explicit ++ changes)).
Proof.
  intros H. unfold call_replace.
  destruct (existsb _ changes) eqn:E; [|reflexivity].
  apply existsb_exists in E as (c & Hc & Hin).
  apply bool_decide_eq_true in Hin.
  rewrite Forall_forall in H. apply list_elem_of_In in Hc.
  by destruct (H c Hc).
Qed.

Lemma replace_app s l1 l2 : replace s (l1 ++ l2) = replace (replace s l1) l2.
Proof. unfold replace. apply foldl_app. Qed.

(** A field that no keyword names keeps its value. *)
Lemma replace_keeps_light_on cs s :
  Forall (fun c => kw_name c ≠ "light_on") cs →
  light_on (replace s cs) = light_on s.
Proof.
  unfold replace. revert s.
  induction cs as [|c cs IH]; intros s H; [reflexivity|].
  inversion H as [|? ? Hc Hcs]; subst. simpl. rewrite IH by assumption.
  destruct s, c; simpl in *; congruence.
Qed.

Lemma replace_keeps_dim_level cs s :
  Forall (fun c => kw_name c ≠ "dim_level") cs →
  dim_level (replace s cs) = dim_level s.
Proof.
  unfold replace. revert s.
  induction cs as [|c cs IH]; intros s H; [reflexivity|].
  inversion H as [|? ? Hc Hcs]; subst. simpl. rewrite IH by assumption.
  destruct s, c; simpl in *; congruence.
Qed.

Lemma replace_keeps_periodic_venting cs s :
  Forall (fun c => kw_name c ≠ "periodic_venting") cs →
  periodic_venting (replace s cs) = periodic_venting s.
Proof.
  unfold replace. revert s.
  induction cs as [|c cs IH]; intros s H; [reflexivity|].
  inversion H as [|? ? Hc Hcs]; subst. simpl. rewrite IH by assumption.
  destruct s, c; simpl in *; congruence.
Qed.

Lemma not_in_names_ne (x : string) (names : list string) (c : change) :
  x ∈ names → kw_name c ∉ names → kw_name c ≠ x.
Proof. intros Hx Hc E. rewrite E in Hc. contradiction. Qed.

(** ** Range checks *)

Lemma _range_check_dim_spec value fallback :
  (dim_valid value → _range_check_dim value fallback = value)
  ∧ (¬ dim_valid value → _range_check_dim value fallback = fallback).
Proof. unfold _range_check_dim, dim_valid. split; intros; repeat case_match; lia. Qed.

Lemma _range_check_period_spec value fallback :
  (period_valid value → _range_check_period value fallback = value)
  ∧ (¬ period_valid value → _range_check_period value fallback = fallback).
Proof. unfold _range_check_period, period_valid. split; intros; repeat case_match; lia. Qed.

Lemma _range_check_dim_valid value fallback :
  dim_valid fallback → dim_valid (_range_check_dim value fallback).
Proof. unfold _range_check_dim, dim_valid. intros; case_match; lia. Qed.

Lemma _range_check_period_valid value fallback :
  period_valid fallback → period_valid (_range_check_period value fallback).
Proof. unfold _range_check_period, period_valid. intros; case_match; lia. Qed.

Lemma byte_int_range b : 0 <= byte_int b < 256.
Proof. unfold byte_int. pose proof (Byte.to_N_bounded b). lia. Qed.

(** ** The advertisement decoder *)

Lemma bytes_getitem_Some (data : bytes) i b :
  data !! i = Some b → bytes_getitem data i = Ok (byte_int b).
Proof. unfold bytes_getitem. by intros ->. Qed.

Lemma bytes_getitem_Ok (data : bytes) i v :
  bytes_getitem data i = Ok v → ∃ b, data !! i = Some b ∧ v = byte_int b.
Proof.
  unfold bytes_getitem. destruct (data !! i) as [b|]; [|discriminate].
  intros [= <-]. eauto.
Qed.

Lemma replace_from_manufacture_data_unfold self (data : bytes) changes
    b8 b9 b10 b11 b13 b14 :
  data !! 8%nat = Some b8 → data !! 9%nat = Some b9 →
  data !! 10%nat = Some b10 → data !! 11%nat = Some b11 →
  data !! 13%nat = Some b13 → data !! 14%nat = Some b14 →
  replace_from_manufacture_data self data changes
  = call_replace self
      (manufacture_fields self (byte_int b8) (byte_int b9) (byte_int b10)
         (byte_int b11) (byte_int b13) (byte_int b14))
      changes.
Proof.
  intros H8 H9 H10 H11 H13 H14. unfold replace_from_manufacture_data.
  rewrite (bytes_getitem_Some _ _ _ H8), (bytes_getitem_Some _ _ _ H9),
    (bytes_getitem_Some _ _ _ H10), (bytes_getitem_Some _ _ _ H11),
    (bytes_getitem_Some _ _ _ H13), (bytes_getitem_Some _ _ _ H14).
  reflexivity.
Qed.

Lemma replace_from_manufacture_data_inv self (data : bytes) changes s' :
  replace_from_manufacture_data self data changes = Ok s' →
  ∃ b8 b9 b10 b11 b13 b14,
    data !! 8%nat = Some b8 ∧ data !! 9%nat = Some b9 ∧
    data !! 10%nat = Some b10 ∧ data !! 11%nat = Some b11 ∧
    data !! 13%nat = Some b13 ∧ data !! 14%nat = Some b14.
Proof.
  unfold replace_from_manufacture_data, bytes_getitem.
  destruct (data !! 10%nat) as [b10|]; [|discriminate].
  destruct (data !! 13%nat) as [b13|]; [|discriminate].
  destruct (data !! 8%nat) as [b8|]; [|discriminate].
  destruct (data !! 9%nat) as [b9|]; [|discriminate].
  destruct (data !! 11%nat) as [b11|]; [|discriminate].
  destruct (data !! 14%nat) as [b14|]; [|discriminate].
  intros _. by exists b8, b9, b10, b11, b13, b14.
Qed.

Lemma lookup_in_range (data : bytes) (i : nat) :
  (i < length data)%nat → ∃ b, data !! i = Some b.
Proof. intros H. by apply lookup_lt_is_Some in H as [b Hb]; exists b. Qed.

Lemma rssi_only_free self b8 b9 b10 b11 b13 b14 changes :
  rssi_only changes →
  Forall (fun c => kw_name c ∉
            kw_name <$> manufacture_fields self b8 b9 b10 b11 b13 b14) changes.
Proof.
  intros H. eapply Forall_impl; [exact H|]. intros c Hc. simpl. rewrite Hc.
  intros Hin. repeat (apply elem_of_cons in Hin as [Hin|Hin]; [discriminate|]).
  by apply elem_of_nil in Hin.
Qed.

Lemma rssi_only_ne (x : string) changes :
  x ≠ "rssi" → rssi_only changes → Forall (fun c => kw_name c ≠ x) changes.
Proof.
  intros Hx H. eapply Forall_impl; [exact H|].
  intros c Hc E. apply Hx. by rewrite <- E, Hc.
Qed.

(** A payload of fifteen bytes or more decodes. *)
Lemma replace_from_manufacture_data_total self (data : bytes) changes :
  (15 <= length data)%nat → rssi_only changes →
  ∃ b8 b9 b10 b11 b13 b14,
    data !! 8%nat = Some b8 ∧ data !! 9%nat = Some b9 ∧
    data !! 10%nat = Some b10 ∧ data !! 11%nat = Some b11 ∧
    data !! 13%nat = Some b13 ∧ data !! 14%nat = Some b14 ∧
    replace_from_manufacture_data self data changes
    = Ok (replace
            (replace self
               (manufacture_fields self (byte_int b8) (byte_int b9)
                  (byte_int b10) (byte_int b11) (byte_int b13) (byte_int b14)))
            changes).
Proof.
  intros Hlen Hch.
  destruct (lookup_in_range data 8) as [b8 H8]; [lia|].
  destruct (lookup_in_range data 9) as [b9 H9]; [lia|].
  destruct (lookup_in_range data 10) as [b10 H10]; [lia|].
  destruct (lookup_in_range data 11) as [b11 H11]; [lia|].
  destruct (lookup_in_range data 13) as [b13 H13]; [lia|].
  destruct (lookup_in_range data 14) as [b14 H14]; [lia|].
  exists b8, b9, b10, b11, b13, b14. repeat (split; [assumption|]).
  rewrite (replace_from_manufacture_data_unfold _ _ _ _ _ _ _ _ _
             H8 H9 H10 H11 H13 H14).
  rewrite call_replace_free by by apply rssi_only_free.
  by rewrite replace_app.
Qed.

(** A shorter payload has no byte 14: the decoder raises [IndexError]. *)
Lemma replace_from_manufacture_data_short self (data : bytes) changes :
  (length data < 15)%nat →
  replace_from_manufacture_data self data changes = Raise IndexError.
Proof.
  intros Hlen.
  assert (data !! 14%nat = None) as H14 by (apply lookup_ge_None; lia).
  unfold replace_from_manufacture_data, bytes_getitem. rewrite H14.
  repeat (case_match; simpl; try reflexivity).
Qed.

Lemma manufacture_light_on self b8 b9 b10 b11 b13 b14 changes :
  rssi_only changes →
  light_on (replace (replace self (manufacture_fields self b8 b9 b10 b11 b13 b14))
              changes)
  = if _bittest b10 0 && negb (light_on self)
       && (_range_check_dim b13 (dim_level self) <? dim_level self)
    then false else _bittest b10 0.
Proof.
  intros Hch. rewrite replace_keeps_light_on by by apply rssi_only_ne.
  by destruct self.
Qed.

Lemma manufacture_dim_level self b8 b9 b10 b11 b13 b14 changes :
  rssi_only changes →
  dim_level (replace (replace self (manufacture_fields self b8 b9 b10 b11 b13 b14))
               changes)
  = _range_check_dim b13 (dim_level self).
Proof.
  intros Hch. rewrite replace_keeps_dim_level by by apply rssi_only_ne.
  by destruct self.
Qed.

Lemma manufacture_periodic_venting self b8 b9 b10 b11 b13 b14 changes :
  rssi_only changes →
  periodic_venting
    (replace (replace self (manufacture_fields self b8 b9 b10 b11 b13 b14)) changes)
  = _range_check_period b14 (periodic_venting self).
Proof.
  intros Hch. rewrite replace_keeps_periodic_venting by by apply rssi_only_ne.
  by destruct self.
Qed.

(** C3.  Advertisement update, light override: for a payload that decodes
    (fifteen bytes or more), when bit 0 of byte 10 is set, the prior State
    has [light_on] false and the decoded (range-checked) dim level is below
    the prior one, the new State has [light_on] false; in every other case
    the new [light_on] is bit 0 of byte 10.  When the prior dim level is
    itself within [0,100], comparing the decoded dim level or byte 13 as
    received makes no difference. *)
Theorem light_on_override_rule (self : State) (data : bytes) (changes : list change) :
  (15 <= length data)%nat →
  rssi_only changes →
  ∃ s' b10 b13,
    replace_from_manufacture_data self data changes = Ok s'
    ∧ data !! 10%nat = Some b10 ∧ data !! 13%nat = Some b13
    ∧ let decoded_light_on := _bittest (byte_int b10) 0 in
      let decoded_dim := _range_check_dim (byte_int b13) (dim_level self) in
      let override :=
        decoded_light_on = true ∧ light_on self = false
        ∧ decoded_dim < dim_level self in
      (override → light_on s' = false)
      ∧ (¬ override → light_on s' = decoded_light_on)
      ∧ (dim_valid (dim_level self) →
         decoded_dim < dim_level self ↔ byte_int b13 < dim_level self).
Proof.
  intros Hlen Hch.
  destruct (replace_from_manufacture_data_total self data changes Hlen Hch)
    as (b8 & b9 & b10 & b11 & b13 & b14 & H8 & H9 & H10 & H11 & H13 & H14 & Hr).
  eexists _, b10, b13. split; [exact Hr|]. do 2 (split; [assumption|]).
  cbv zeta. rewrite manufacture_light_on by assumption.
  match goal with
  | |- ?A ∧ ?B ∧ ?C => cut ((A ∧ B) ∧ C); [tauto | split]
  end.
  - destruct (_bittest (byte_int b10) 0), (light_on self); simpl;
      try (split; [intros (? & ? & ?); congruence | reflexivity]).
    destruct (Z.ltb_spec (_range_check_dim (byte_int b13) (dim_level self))
                (dim_level self)); split; try reflexivity; intros H'; try tauto.
    destruct H' as (_ & _ & ?). lia.
  - intros Hv. pose proof (byte_int_range b13).
    unfold _range_check_dim, dim_valid in *. case_match; lia.
Qed.

Lemma light_on_override_rule_witness :
  ∃ s' b10 b13,
    replace_from_manufacture_data (mkState false 0 false false 0 false false 80 0 false 0)
      (ANNOUNCE_PREFIX ++ [x02; x01; x07; x05; x00; x28; x0a]%byte)
      [kw_rssi (-60)] = Ok s'
    ∧ (ANNOUNCE_PREFIX ++ [x02; x01; x07; x05; x00; x28; x0a]%byte) !! 10%nat = Some b10
    ∧ (ANNOUNCE_PREFIX ++ [x02; x01; x07; x05; x00; x28; x0a]%byte) !! 13%nat = Some b13
    ∧ let decoded_light_on := _bittest (byte_int b10) 0 in
      let decoded_dim := _range_check_dim (byte_int b13) 80 in
      let override :=
        decoded_light_on = true ∧ false = false ∧ decoded_dim < 80 in
      (override → light_on s' = false)
      ∧ (¬ override → light_on s' = decoded_light_on)
      ∧ (dim_valid 80 → decoded_dim < 80 ↔ byte_int b13 < 80).
Proof.
  apply (light_on_override_rule
           (mkState false 0 false false 0 false false 80 0 false 0)
           (ANNOUNCE_PREFIX ++ [x02; x01; x07; x05; x00; x28; x0a]%byte)
           [kw_rssi (-60)]).
  - simpl. lia.
  - repeat constructor.
Defined.

Example override_fires :
  replace_from_manufacture_data (mkState false 0 false false 0 false false 80 0 false 0)
    (ANNOUNCE_PREFIX ++ [x02; x01; x07; x05; x00; x28; x0a]%byte) [kw_rssi (-60)]
  = Ok (mkState false 1 true true 2 true false 40 10 true (-60)).
Proof. vm_compute. reflexivity. Qed.

(** C10.  For a payload that decodes whose byte 13 is outside [0,100], the
    comparison of the override is made on the prior dim level itself, the
    override does not fire and the new [light_on] is bit 0 of byte 10; the
    new [light_on] differs from that bit only when byte 13 is a valid dim
    level strictly below the prior one. *)
Theorem override_needs_valid_dim (self : State) (data : bytes)
    (changes : list change) (b13 : byte) :
  (15 <= length data)%nat →
  rssi_only changes →
  data !! 13%nat = Some b13 →
  ∃ s' b10,
    replace_from_manufacture_data self data changes = Ok s'
    ∧ data !! 10%nat = Some b10
    ∧ (¬ dim_valid (byte_int b13) →
       _range_check_dim (byte_int b13) (dim_level self) = dim_level self
       ∧ light_on s' = _bittest (byte_int b10) 0)
    ∧ (light_on s' ≠ _bittest (byte_int b10) 0 →
       dim_valid (byte_int b13) ∧ byte_int b13 < dim_level self).
Proof.
  intros Hlen Hch H13.
  destruct (replace_from_manufacture_data_total self data changes Hlen Hch)
    as (b8 & b9 & b10 & b11 & b13' & b14 & H8 & H9 & H10 & H11 & H13' & H14 & Hr).
  assert (b13' = b13) as -> by congruence.
  eexists _, b10. split; [exact Hr|]. split; [assumption|].
  rewrite manufacture_light_on by assumption.
  destruct (_range_check_dim_spec (byte_int b13) (dim_level self)) as [Hin Hout].
  split.
  - intros Hbad. rewrite (Hout Hbad). split; [reflexivity|].
    rewrite Z.ltb_irrefl, andb_false_r. reflexivity.
  - intros Hne.
    destruct (_bittest (byte_int b10) 0), (light_on self); simpl in Hne;
      try congruence.
    destruct (Z.ltb_spec (_range_check_dim (byte_int b13) (dim_level self))
                (dim_level self)) as [Hlt|Hge]; [|congruence].
    destruct (decide (dim_valid (byte_int b13))) as [Hv|Hv].
    + split; [assumption|]. rewrite (Hin Hv) in Hlt. assumption.
    + rewrite (Hout Hv) in Hlt. lia.
Qed.

Lemma override_needs_valid_dim_witness :
  ∃ s' b10,
    replace_from_manufacture_data (mkState false 0 false false 0 false false 80 0 false 0)
      (ANNOUNCE_PREFIX ++ [x02; x01; x07; x05; x00; xc8; x0a]%byte)
      [kw_rssi (-60)] = Ok s'
    ∧ (ANNOUNCE_PREFIX ++ [x02; x01; x07; x05; x00; xc8; x0a]%byte) !! 10%nat = Some b10
    ∧ (¬ dim_valid (byte_int xc8) →
       _range_check_dim (byte_int xc8) 80 = 80
       ∧ light_on s' = _bittest (byte_int b10) 0)
    ∧ (light_on s' ≠ _bittest (byte_int b10) 0 →
       dim_valid (byte_int xc8) ∧ byte_int xc8 < 80).
Proof.
  apply (override_needs_valid_dim
           (mkState false 0 false false 0 false false 80 0 false 0)
           (ANNOUNCE_PREFIX ++ [x02; x01; x07; x05; x00; xc8; x0a]%byte)
           [kw_rssi (-60)] xc8).
  - simpl. lia.
  - repeat constructor.
  - reflexivity.
Defined.

(** ** The characteristic decoder *)

Lemma get_string_of_list_byte (l : bytes) (i : nat) :
  String.get i (string_of_list_byte l) = ascii_of_byte <$> l !! i.
Proof.
  revert i. induction l as [|b l IH]; intros [|i]; try reflexivity.
  apply IH.
Qed.

Lemma substring_string_of_list_byte (l : bytes) (i n : nat) :
  String.substring i n (string_of_list_byte l)
  = string_of_list_byte (take n (drop i l)).
Proof.
  revert i n. induction l as [|b l IH]; intros [|i] [|n]; try reflexivity.
  - change (string_of_list_byte (b :: l))
      with (String (ascii_of_byte b) (string_of_list_byte l)).
    simpl.
    change (string_of_list_byte (b :: take n l))
      with (String (ascii_of_byte b) (string_of_list_byte (take n l))).
    f_equal. apply (IH 0%nat n).
  - apply (IH i 0%nat).
  - apply (IH i (S n)).
Qed.

Lemma decode_ascii_Ok databytes text :
  decode_ascii databytes = Ok text → text = string_of_list_byte databytes.
Proof. unfold decode_ascii. case_match; congruence. Qed.

Lemma str_getitem_Some text i c :
  String.get i text = Some c → str_getitem text i = Ok c.
Proof. unfold str_getitem. by intros ->. Qed.

Lemma str_getitem_Ok text i c :
  str_getitem text i = Ok c → String.get i text = Some c.
Proof. unfold str_getitem. case_match; congruence. Qed.

Lemma replace_from_tx_char_unfold self databytes changes text
    c4 c5 c6 c7 c8 c9 fan dim period :
  decode_ascii databytes = Ok text →
  String.get 4 text = Some c4 → int_of_char c4 = Ok fan →
  String.get 5 text = Some c5 → String.get 6 text = Some c6 →
  String.get 7 text = Some c7 → String.get 8 text = Some c8 →
  String.get 9 text = Some c9 →
  int_of_str (str_slice text 10 13) = Ok dim →
  int_of_str (str_slice text 13 15) = Ok period →
  replace_from_tx_char self databytes changes
  = call_replace self (tx_fields self fan c5 c6 c7 c8 c9 dim period) changes.
Proof.
  intros Hd H4 Hfan H5 H6 H7 H8 H9 Hdim Hper. unfold replace_from_tx_char.
  rewrite Hd. simpl.
  rewrite (str_getitem_Some _ _ _ H4). simpl. rewrite Hfan. simpl.
  rewrite (str_getitem_Some _ _ _ H5), (str_getitem_Some _ _ _ H6),
    (str_getitem_Some _ _ _ H7), (str_getitem_Some _ _ _ H8),
    (str_getitem_Some _ _ _ H9). simpl.
  rewrite Hdim. simpl. rewrite Hper. reflexivity.
Qed.

Lemma replace_from_tx_char_inv self databytes changes s' :
  replace_from_tx_char self databytes changes = Ok s' →
  ∃ text c4 c5 c6 c7 c8 c9 fan dim period,
    decode_ascii databytes = Ok text ∧
    String.get 4 text = Some c4 ∧ int_of_char c4 = Ok fan ∧
    String.get 5 text = Some c5 ∧ String.get 6 text = Some c6 ∧
    String.get 7 text = Some c7 ∧ String.get 8 text = Some c8 ∧
    String.get 9 text = Some c9 ∧
    int_of_str (str_slice text 10 13) = Ok dim ∧
    int_of_str (str_slice text 13 15) = Ok period ∧
    call_replace self (tx_fields self fan c5 c6 c7 c8 c9 dim period) changes
    = Ok s'.
Proof.
  unfold replace_from_tx_char.
  destruct (decode_ascii databytes) as [text|] eqn:Hd; [simpl|discriminate].
  destruct (str_getitem text 4) as [c4|] eqn:H4; [simpl|discriminate].
  destruct (int_of_char c4) as [fan|] eqn:Hfan; [simpl|discriminate].
  destruct (str_getitem text 5) as [c5|] eqn:H5; [simpl|discriminate].
  destruct (str_getitem text 6) as [c6|] eqn:H6; [simpl|discriminate].
  destruct (str_getitem text 7) as [c7|] eqn:H7; [simpl|discriminate].
  destruct (str_getitem text 8) as [c8|] eqn:H8; [simpl|discriminate].
  destruct (str_getitem text 9) as [c9|] eqn:H9; [simpl|discriminate].
  destruct (int_of_str (str_slice text 10 13)) as [dim|] eqn:Hdim;
    [simpl|discriminate].
  destruct (int_of_str (str_slice text 13 15)) as [period|] eqn:Hper;
    [simpl|discriminate].
  intros Hr. exists text, c4, c5, c6, c7, c8, c9, fan, dim, period.
  apply str_getitem_Ok in H4, H5, H6, H7, H8, H9. by repeat split.
Qed.

(** What the decoder raises is a [ValueError], an [IndexError] or, through
    the caller's keywords, a [TypeError]. *)
Lemma int_of_str_raises text e :
  int_of_str text = Raise e → e = ValueError.
Proof.
  unfold int_of_str. repeat case_match; congruence.
Qed.

(** *** Digits *)

Lemma digit_value_plain c v :
  digit_value c = Some v →
  is_space c = false ∧ Ascii.eqb c "+" = false ∧ Ascii.eqb c "-" = false
  ∧ Ascii.eqb c "_" = false ∧ 0 <= v <= 9.
Proof.
  destruct c as [[] [] [] [] [] [] [] []]; vm_compute; intros [= <-];
    repeat split; congruence.
Qed.

Lemma int_of_char_digit c v : digit_value c = Some v → int_of_char c = Ok v.
Proof.
  intros H. destruct (digit_value_plain c v H) as (Hs & Hp & Hm & _).
  unfold int_of_char, int_of_str. simpl. rewrite Hs, Hp, Hm, H. reflexivity.
Qed.

Lemma int_of_char_not_digit c :
  digit_value c = None → int_of_char c = Raise ValueError.
Proof.
  intros H. unfold int_of_char, int_of_str. simpl.
  destruct (is_space c); [reflexivity|].
  destruct (Ascii.eqb c "+"); [reflexivity|].
  destruct (Ascii.eqb c "-"); [reflexivity|].
  by rewrite H.
Qed.


Lemma int_of_str_digits3 c1 c2 c3 v1 v2 v3 :
  digit_value c1 = Some v1 → digit_value c2 = Some v2 →
  digit_value c3 = Some v3 →
  int_of_str (String c1 (String c2 (String c3 EmptyString)))
  = Ok (100 * v1 + 10 * v2 + v3).
Proof.
  intros H1 H2 H3. destruct (digit_value_plain c1 v1 H1) as (Hs & Hp & Hm & _).
  unfold int_of_str. simpl. rewrite Hs, Hp, Hm, H1. simpl. rewrite H2, H3.
  simpl. f_equal. lia.
Qed.

(** ** The callbacks *)

Lemma characteristic_callback_eq data w :
  characteristic_callback data w =
  if bool_decide (bytes_slice data 0 4 ≠ _keycode (dev w))
  then (Ok tt, mkWorld (dev w)
                 (trace w ++ [entered_log; Log WARNING "Wrong keycode in data %s"]))
  else
    match replace_from_tx_char (state (dev w)) data [] with
    | Ok s =>
        (Ok tt, mkWorld (set_state s (dev w))
                  (trace w ++ [entered_log;
                               Log DEBUG "Characteristic callback result: %s"]))
    | Raise e => (Raise e, mkWorld (dev w) (trace w ++ [entered_log]))
    end.
Proof.
  unfold characteristic_callback, mbind, M_bind, debug, warning, emit, self,
    lift, assign. simpl.
  case_bool_decide; simpl.
  - by rewrite <- app_assoc.
  - destruct (replace_from_tx_char (state (dev w)) data []); simpl;
      [by rewrite <- app_assoc | reflexivity].
Qed.

Lemma detection_callback_raw_eq data rssi w :
  detection_callback_raw data rssi w =
  if bool_decide (bytes_slice data 0 8 ≠ ANNOUNCE_PREFIX)
  then (Ok tt, mkWorld (dev w)
                 (trace w ++ [Log DEBUG "Missing key in manufacturer data %s"]))
  else
    match replace_from_manufacture_data (state (dev w)) data [kw_rssi rssi] with
    | Ok s =>
        (Ok tt, mkWorld (set_state s (dev w))
                  (trace w ++ [Log DEBUG "Detection callback result: %s"]))
    | Raise e => (Raise e, w)
    end.
Proof.
  unfold detection_callback_raw, mbind, M_bind, debug, emit, self, lift, assign.
  case_bool_decide; simpl; [reflexivity|].
  destruct (replace_from_manufacture_data _ data _); simpl; [reflexivity|].
  by destruct w.
Qed.

(** ** Validity of the two ranged fields *)

Lemma free_ne (x : string) (names : list string) changes :
  x ∈ names →
  Forall (fun c => kw_name c ∉ names) changes →
  Forall (fun c => kw_name c ≠ x) changes.
Proof.
  intros Hx H. eapply Forall_impl; [exact H|].
  intros c Hc. by eapply not_in_names_ne.
Qed.

Lemma tx_char_ranged self databytes changes s' :
  replace_from_tx_char self databytes changes = Ok s' →
  ∃ text dim period,
    decode_ascii databytes = Ok text
    ∧ int_of_str (str_slice text 10 13) = Ok dim
    ∧ int_of_str (str_slice text 13 15) = Ok period
    ∧ dim_level s' = _range_check_dim dim (dim_level self)
    ∧ periodic_venting s' = _range_check_period period (periodic_venting self).
Proof.
  intros H. apply replace_from_tx_char_inv in H
    as (text & c4 & c5 & c6 & c7 & c8 & c9 & fan & dim & period & Hd & _ & _
        & _ & _ & _ & _ & _ & Hdim & Hper & Hr).
  exists text, dim, period. do 3 (split; [assumption|]).
  apply call_replace_Ok in Hr as [-> Hfree]. rewrite replace_app. split.
  - rewrite replace_keeps_dim_level.
    + by destruct self.
    + eapply free_ne; [|exact Hfree]. simpl. set_solver.
  - rewrite replace_keeps_periodic_venting.
    + by destruct self.
    + eapply free_ne; [|exact Hfree]. simpl. set_solver.
Qed.

Lemma manufacture_data_ranged self (data : bytes) changes s' :
  replace_from_manufacture_data self data changes = Ok s' →
  ∃ b13 b14,
    data !! 13%nat = Some b13 ∧ data !! 14%nat = Some b14
    ∧ dim_level s' = _range_check_dim (byte_int b13) (dim_level self)
    ∧ periodic_venting s'
      = _range_check_period (byte_int b14) (periodic_venting self).
Proof.
  intros H. destruct (replace_from_manufacture_data_inv _ _ _ _ H)
    as (b8 & b9 & b10 & b11 & b13 & b14 & H8 & H9 & H10 & H11 & H13 & H14).
  exists b13, b14. do 2 (split; [assumption|]).
  rewrite (replace_from_manufacture_data_unfold _ _ _ _ _ _ _ _ _
             H8 H9 H10 H11 H13 H14) in H.
  apply call_replace_Ok in H as [-> Hfree]. rewrite replace_app. split.
  - rewrite replace_keeps_dim_level.
    + by destruct self.
    + eapply free_ne; [|exact Hfree]. simpl. set_solver.
  - rewrite replace_keeps_periodic_venting.
    + by destruct self.
    + eapply free_ne; [|exact Hfree]. simpl. set_solver.
Qed.

Lemma characteristic_callback_valid data w :
  State_valid (state (dev w)) →
  State_valid (state (dev (characteristic_callback data w).2)).
Proof.
  intros [Hd Hp]. rewrite characteristic_callback_eq.
  case_bool_decide; simpl; [by split|].
  destruct (replace_from_tx_char _ data []) as [s|e] eqn:E; simpl; [|by split].
  apply tx_char_ranged in E as (? & dim & period & _ & _ & _ & Hdl & Hpv).
  unfold State_valid. rewrite Hdl, Hpv.
  split; [by apply _range_check_dim_valid | by apply _range_check_period_valid].
Qed.

Lemma detection_callback_raw_valid data rssi w :
  State_valid (state (dev w)) →
  State_valid (state (dev (detection_callback_raw data rssi w).2)).
Proof.
  intros [Hd Hp]. rewrite detection_callback_raw_eq.
  case_bool_decide; simpl; [by split|].
  destruct (replace_from_manufacture_data _ data _) as [s|e] eqn:E; simpl;
    [|by split].
  apply manufacture_data_ranged in E as (b13 & b14 & _ & _ & Hdl & Hpv).
  unfold State_valid. rewrite Hdl, Hpv.
  split; [by apply _range_check_dim_valid | by apply _range_check_period_valid].
Qed.

(** C4.  From a State whose [dim_level] is in [0,100] and whose
    [periodic_venting] is in [0,60), each decoder that returns a State
    returns one within the same ranges; a decoded number outside its range
    leaves the field at the prior value; numbers out of range never make
    the decoder raise; and after either callback, returning or raising,
    the State of the device is within the ranges. *)
Theorem range_invariant (self : State) :
  State_valid self →
  (∀ databytes changes s',
      replace_from_tx_char self databytes changes = Ok s' →
      State_valid s'
      ∧ ∃ text dim period,
          decode_ascii databytes = Ok text
          ∧ int_of_str (str_slice text 10 13) = Ok dim
          ∧ int_of_str (str_slice text 13 15) = Ok period
          ∧ (¬ dim_valid dim → dim_level s' = dim_level self)
          ∧ (¬ period_valid period → periodic_venting s' = periodic_venting self))
  ∧ (∀ (data : bytes) changes s',
      replace_from_manufacture_data self data changes = Ok s' →
      State_valid s'
      ∧ ∃ b13 b14,
          data !! 13%nat = Some b13 ∧ data !! 14%nat = Some b14
          ∧ (¬ dim_valid (byte_int b13) → dim_level s' = dim_level self)
          ∧ (¬ period_valid (byte_int b14) →
             periodic_venting s' = periodic_venting self))
  ∧ (∀ databytes text c4 c5 c6 c7 c8 c9 fan dim period,
      decode_ascii databytes = Ok text →
      String.get 4 text = Some c4 → int_of_char c4 = Ok fan →
      String.get 5 text = Some c5 → String.get 6 text = Some c6 →
      String.get 7 text = Some c7 → String.get 8 text = Some c8 →
      String.get 9 text = Some c9 →
      int_of_str (str_slice text 10 13) = Ok dim →
      int_of_str (str_slice text 13 15) = Ok period →
      ∃ s', replace_from_tx_char self databytes [] = Ok s')
  ∧ (∀ (data : bytes) rssi,
      (15 <= length data)%nat →
      ∃ s', replace_from_manufacture_data self data [kw_rssi rssi] = Ok s')
  ∧ (∀ w data rssi,
      state (dev w) = self →
      State_valid (state (dev (characteristic_callback data w).2))
      ∧ State_valid (state (dev (detection_callback_raw data rssi w).2))).
Proof.
  intros [Hd Hp]. split; [|split; [|split; [|split]]].
  - intros databytes changes s' H.
    apply tx_char_ranged in H as (text & dim & period & ? & ? & ? & Hdl & Hpv).
    split.
    + unfold State_valid. rewrite Hdl, Hpv.
      split; [by apply _range_check_dim_valid | by apply _range_check_period_valid].
    + exists text, dim, period. do 3 (split; [assumption|]).
      rewrite Hdl, Hpv.
      split; [apply _range_check_dim_spec | apply _range_check_period_spec].
  - intros data changes s' H.
    apply manufacture_data_ranged in H as (b13 & b14 & ? & ? & Hdl & Hpv).
    split.
    + unfold State_valid. rewrite Hdl, Hpv.
      split; [by apply _range_check_dim_valid | by apply _range_check_period_valid].
    + exists b13, b14. do 2 (split; [assumption|]).
      rewrite Hdl, Hpv.
      split; [apply _range_check_dim_spec | apply _range_check_period_spec].
  - intros. eexists.
    erewrite replace_from_tx_char_unfold by eassumption. reflexivity.
  - intros data rssi Hlen.
    destruct (replace_from_manufacture_data_total self data [kw_rssi rssi])
      as (? & ? & ? & ? & ? & ? & _ & _ & _ & _ & _ & _ & Hr);
      [assumption | repeat constructor |].
    eexists. exact Hr.
  - intros w data rssi <-. split.
    + by apply characteristic_callback_valid.
    + by apply detection_callback_raw_valid.
Qed.

Lemma range_invariant_witness :
  State_valid
    (state (dev (characteristic_callback (list_byte_of_string "12343LNCFK15075")
                   (mkWorld (Device_init "00:11:22:33:44:55" default_keycode) [])).2)).
Proof.
  assert (State_valid State_default) as Hv.
  { unfold State_valid, dim_valid, period_valid. simpl. lia. }
  exact (proj1 (proj2 (proj2 (proj2 (proj2 (range_invariant State_default Hv))))
                  (mkWorld (Device_init "00:11:22:33:44:55" default_keycode) [])
                  (list_byte_of_string "12343LNCFK15075") 0 eq_refl)).
Defined.

(** Out-of-range numbers in the text fall back, they do not raise. *)
Example tx_char_fallback :
  replace_from_tx_char (mkState false 0 false false 0 false false 80 45 false 0)
    (list_byte_of_string "12343LNCFK15075") []
  = Ok (mkState true 0 true true 3 true true 80 45 false 0).
Proof. vm_compute. reflexivity. Qed.

(** C2.  A characteristic payload whose first four bytes are not the
    keycode leaves every attribute of the device, and so every field of its
    State, as it was; the callback returns normally after logging the
    warning. *)
Theorem wrong_keycode_dropped (w : World) (data : bytes) :
  bytes_slice data 0 4 ≠ _keycode (dev w) →
  characteristic_callback data w
  = (Ok tt,
     mkWorld (dev w)
       (trace w ++ [entered_log; Log WARNING "Wrong keycode in data %s"])).
Proof.
  intros H. rewrite characteristic_callback_eq.
  by rewrite bool_decide_eq_true_2.
Qed.

Lemma wrong_keycode_dropped_witness :
  characteristic_callback (list_byte_of_string "99993LNCFK05030")
    (mkWorld (Device_init "00:11:22:33:44:55" default_keycode) [])
  = (Ok tt,
     mkWorld (Device_init "00:11:22:33:44:55" default_keycode)
       [entered_log; Log WARNING "Wrong keycode in data %s"]).
Proof.
  apply (wrong_keycode_dropped
           (mkWorld (Device_init "00:11:22:33:44:55" default_keycode) [])
           (list_byte_of_string "99993LNCFK05030")).
  vm_compute. discriminate.
Defined.

(** ** Layout of the characteristic payload *)

Lemma ascii_eqb_of_byte (b c : byte) :
  Ascii.eqb (ascii_of_byte b) (ascii_of_byte c) = bool_decide (b = c).
Proof.
  case_bool_decide as H.
  - subst. apply Ascii.eqb_refl.
  - apply Ascii.eqb_neq. intros E. apply H.
    by rewrite <- (byte_of_ascii_of_byte b), E, byte_of_ascii_of_byte.
Qed.

Lemma decode_ascii_plain databytes :
  forallb (fun b => byte_int b <? 128) databytes = true →
  decode_ascii databytes = Ok (string_of_list_byte databytes).
Proof. unfold decode_ascii. by intros ->. Qed.





(** ** Malformed numbers in the characteristic payload *)

(** A blank in front of the dim level is read as part of the number. *)
Lemma non_digit_accepted : ¬ non_digit_always_raises.
Proof.
  intros H.
  destruct (H (mkWorld (Device_init "00:11:22:33:44:55" default_keycode) [])
              (list_byte_of_string "12343LNCFK 5030") 10%nat " "%byte)
    as (e & w' & Heq & _).
  - reflexivity.
  - unfold numeric_positions. set_solver.
  - reflexivity.
  - reflexivity.
  - vm_compute in Heq. discriminate.
Qed.

Example blank_before_dim_level :
  characteristic_callback (list_byte_of_string "12343LNCFK 5030")
    (mkWorld (Device_init "00:11:22:33:44:55" default_keycode) [])
  = (Ok tt,
     mkWorld
       (set_state (mkState true 0 true true 3 true true 50 30 false 0)
          (Device_init "00:11:22:33:44:55" default_keycode))
       [entered_log; Log DEBUG "Characteristic callback result: %s"]).
Proof. vm_compute. reflexivity. Qed.

Lemma decode_ascii_raises databytes e :
  decode_ascii databytes = Raise e → e = UnicodeDecodeError.
Proof. unfold decode_ascii. case_match; congruence. Qed.

Lemma is_digit_false c : is_digit c = false → digit_value c = None.
Proof. unfold is_digit. case_match; congruence. Qed.

(** With a non-digit at byte 4 the decoder raises before it reads any
    other field. *)
Lemma tx_char_fan_not_digit self (databytes : bytes) changes b :
  databytes !! 4%nat = Some b →
  digit_value (ascii_of_byte b) = None →
  ∃ e, replace_from_tx_char self databytes changes = Raise e
       ∧ is_ValueError e = true.
Proof.
  intros Hb Hd. unfold replace_from_tx_char.
  destruct (decode_ascii databytes) as [text|e] eqn:E; simpl.
  - apply decode_ascii_Ok in E as ->.
    assert (str_getitem (string_of_list_byte databytes) 4 = Ok (ascii_of_byte b))
      as -> by (apply str_getitem_Some; by rewrite get_string_of_list_byte, Hb).
    simpl.
    rewrite int_of_char_not_digit by assumption. simpl. by exists ValueError.
  - apply decode_ascii_raises in E as ->. by exists UnicodeDecodeError.
Qed.

(** With ten bytes or more, a number that [int] refuses makes the decoder
    raise. *)
Lemma tx_char_number_refused self (databytes : bytes) changes :
  (10 <= length databytes)%nat →
  int_of_str (str_slice (string_of_list_byte databytes) 10 13) = Raise ValueError
  ∨ int_of_str (str_slice (string_of_list_byte databytes) 13 15) = Raise ValueError →
  ∃ e, replace_from_tx_char self databytes changes = Raise e
       ∧ is_ValueError e = true.
Proof.
  intros Hlen Hbad. unfold replace_from_tx_char.
  destruct (decode_ascii databytes) as [text|e] eqn:E; simpl.
  2: { apply decode_ascii_raises in E as ->. by exists UnicodeDecodeError. }
  apply decode_ascii_Ok in E as ->.
  assert (∀ i, (i < 10)%nat →
               ∃ c, str_getitem (string_of_list_byte databytes) i = Ok c) as Hget.
  { intros i Hi. destruct (lookup_in_range databytes i) as [b Hb]; [lia|].
    exists (ascii_of_byte b). apply str_getitem_Some.
    by rewrite get_string_of_list_byte, Hb. }
  destruct (Hget 4%nat) as [c4 ->]; [lia|]. simpl.
  destruct (int_of_char c4) as [fan|e] eqn:Hfan; simpl.
  2: { apply int_of_str_raises in Hfan as ->. by exists ValueError. }
  destruct (Hget 5%nat) as [c5 ->]; [lia|]. simpl.
  destruct (Hget 6%nat) as [c6 ->]; [lia|]. simpl.
  destruct (Hget 7%nat) as [c7 ->]; [lia|]. simpl.
  destruct (Hget 8%nat) as [c8 ->]; [lia|]. simpl.
  destruct (Hget 9%nat) as [c9 ->]; [lia|]. simpl.
  destruct (int_of_str (str_slice _ 10 13)) as [dim|e] eqn:Hdim; simpl.
  2: { apply int_of_str_raises in Hdim as ->. by exists ValueError. }
  destruct Hbad as [Hbad|Hbad]; [congruence|].
  rewrite Hbad. simpl. by exists ValueError.
Qed.

(** C5, as the code has it.  For a payload that starts with the keycode:
    when byte 4 is not an ASCII digit, or when the payload has ten bytes or
    more and the text of bytes 10 to 12 or of bytes 13 and 14 is one that
    [int] refuses, the callback raises [ValueError] (its subclass
    [UnicodeDecodeError] when a byte is not ASCII) to its caller, and no
    attribute of the device, so no field of the State, is assigned. *)
Theorem malformed_number_raises (w : World) (data : bytes) :
  bytes_slice data 0 4 = _keycode (dev w) →
  (∃ b, data !! 4%nat = Some b ∧ is_digit (ascii_of_byte b) = false)
  ∨ ((10 <= length data)%nat
     ∧ (int_of_str (str_slice (string_of_list_byte data) 10 13) = Raise ValueError
        ∨ int_of_str (str_slice (string_of_list_byte data) 13 15) = Raise ValueError)) →
  ∃ e,
    characteristic_callback data w
    = (Raise e, mkWorld (dev w) (trace w ++ [entered_log]))
    ∧ is_ValueError e = true.
Proof.
  intros Hkey Hbad. rewrite characteristic_callback_eq.
  rewrite bool_decide_eq_false_2 by (intros Hne; by apply Hne).
  assert (∃ e, replace_from_tx_char (state (dev w)) data [] = Raise e
               ∧ is_ValueError e = true) as (e & -> & He).
  { destruct Hbad as [(b & Hb & Hd) | (Hlen & Hnum)].
    - apply tx_char_fan_not_digit with b; [assumption|by apply is_digit_false].
    - by apply tx_char_number_refused. }
  by exists e.
Qed.

Lemma malformed_number_raises_witness :
  ∃ e,
    characteristic_callback (list_byte_of_string "1234xLNCFK05030")
      (mkWorld (Device_init "00:11:22:33:44:55" default_keycode) [])
    = (Raise e,
       mkWorld (Device_init "00:11:22:33:44:55" default_keycode) [entered_log])
    ∧ is_ValueError e = true.
Proof.
  apply (malformed_number_raises
           (mkWorld (Device_init "00:11:22:33:44:55" default_keycode) [])
           (list_byte_of_string "1234xLNCFK05030")).
  - reflexivity.
  - left. exists "x"%byte. split; reflexivity.
Defined.

(** ** Commands *)

Lemma set_state_same d : set_state (state d) d = d.
Proof. by destruct d. Qed.

Lemma world_eta w : mkWorld (dev w) (trace w) = w.
Proof. by destruct w. Qed.

Lemma send_command_eq cmd writing w :
  send_command cmd writing w =
  match _client (dev w) with
  | None => (Raise AssertionError, w)
  | Some _ =>
      match fromhex cmd with
      | Raise e => (Raise e, w)
      | Ok data =>
          let tr := trace w ++ [GattWrite UUID_RX data true] in
          match writing with
          | Ok _ =>
              (Ok tt,
               mkWorld (set_state (after_command cmd (state (dev w))) (dev w)) tr)
          | Raise e =>
              (Raise (write_failure e).1,
               mkWorld (dev w) (tr ++ (write_failure e).2))
          end
      end
  end.
Proof.
  unfold send_command, assert_connected, mbind, M_bind, self, lift, raise,
    emit, debug, assign, after_command.
  simpl. destruct (_client (dev w)); simpl; [|reflexivity].
  destruct (fromhex cmd) as [data|e]; simpl; [|reflexivity].
  destruct writing as [[]|e]; simpl.
  - repeat case_bool_decide; simpl; try reflexivity.
    by rewrite set_state_same.
  - destruct e; simpl; rewrite ?app_nil_r; reflexivity.
Qed.

Lemma fromhex_light_on :
  fromhex COMMAND_LIGHT_ON_HEX
  = Ok [x84; xdd; x50; x42; x37; x41; x50; x89;
        x7a; xc8; x2f; x39; x11; x09; x68; xa8]%byte.
Proof. vm_compute. reflexivity. Qed.

Lemma fromhex_light_off :
  fromhex COMMAND_LIGHT_OFF_HEX
  = Ok [x79; xd1; xdb; xa4; x09; x19; xc2; x46;
        xa8; x58; x0a; xe7; xd1; x1b; x78; x84]%byte.
Proof. vm_compute. reflexivity. Qed.

Lemma same_but_light_on_refl s : same_but_light_on s s.
Proof. by destruct s. Qed.

Lemma same_but_light_on_replace s v :
  same_but_light_on s (replace s [kw_light_on v]).
Proof. by destruct s. Qed.

(** C6.  On a connected device, a [send_command] whose write succeeds
    returns with [light_on] true for the light-on command and false for the
    light-off command, whatever the prior State; and whatever the command
    and the outcome of the write, [send_command] changes no field of the
    State other than [light_on]. *)
Theorem send_command_light (w : World) (c : BleakClient) :
  _client (dev w) = Some c →
  ((send_command COMMAND_LIGHT_ON_HEX (Ok tt) w).1 = Ok tt
   ∧ light_on (state (dev (send_command COMMAND_LIGHT_ON_HEX (Ok tt) w).2)) = true)
  ∧ ((send_command COMMAND_LIGHT_OFF_HEX (Ok tt) w).1 = Ok tt
     ∧ light_on (state (dev (send_command COMMAND_LIGHT_OFF_HEX (Ok tt) w).2)) = false)
  ∧ (∀ cmd writing,
       same_but_light_on (state (dev w))
         (state (dev (send_command cmd writing w).2))).
Proof.
  intros Hc. split; [|split].
  - rewrite send_command_eq, Hc, fromhex_light_on. simpl.
    split; [reflexivity|]. by destruct (state (dev w)).
  - rewrite send_command_eq, Hc, fromhex_light_off. simpl.
    split; [reflexivity|]. by destruct (state (dev w)).
  - intros cmd writing. rewrite send_command_eq, Hc.
    destruct (fromhex cmd) as [data|e]; simpl;
      [|apply same_but_light_on_refl].
    destruct writing as [[]|e]; simpl; [|apply same_but_light_on_refl].
    unfold after_command. repeat case_bool_decide;
      auto using same_but_light_on_refl, same_but_light_on_replace.
Qed.

Lemma send_command_light_witness :
  ((send_command COMMAND_LIGHT_ON_HEX (Ok tt) (mkWorld connected_device [])).1 = Ok tt
   ∧ light_on (state (dev (send_command COMMAND_LIGHT_ON_HEX (Ok tt)
                             (mkWorld connected_device [])).2)) = true)
  ∧ ((send_command COMMAND_LIGHT_OFF_HEX (Ok tt) (mkWorld connected_device [])).1 = Ok tt
     ∧ light_on (state (dev (send_command COMMAND_LIGHT_OFF_HEX (Ok tt)
                               (mkWorld connected_device [])).2)) = false)
  ∧ (∀ cmd writing,
       same_but_light_on (state connected_device)
         (state (dev (send_command cmd writing (mkWorld connected_device [])).2))).
Proof.
  apply (send_command_light (mkWorld connected_device [])
           (mkBleakClient (ByAddress "00:11:22:33:44:55") 30)).
  reflexivity.
Defined.

Example send_light_off :
  send_command COMMAND_LIGHT_OFF_HEX (Ok tt) (mkWorld connected_device [])
  = (Ok tt,
     mkWorld
       (set_state (mkState false 1 true true 2 true false 40 10 true (-60))
          connected_device)
       [GattWrite UUID_RX
          [x79; xd1; xdb; xa4; x09; x19; xc2; x46;
           xa8; x58; x0a; xe7; xd1; x1b; x78; x84]%byte true]).
Proof. vm_compute. reflexivity. Qed.

(** ** Connecting *)

Lemma connect_enter_eq t opening w :
  connect_enter t opening w =
  match _client (dev w) with
  | None =>
      let c := mkBleakClient (requested t (dev w)) 30 in
      match opening with
      | Ok _ =>
          (Ok tt,
           mkWorld
             (mkDevice (address (dev w)) (_keycode (dev w)) (state (dev w))
                (_lock (dev w)) (Some c) (_client_count (dev w) + 1)
                (c :: _client_stack (dev w)))
             (trace w ++ [Log DEBUG "Connecting"; LinkOpen c]))
      | Raise e =>
          (Raise (connect_failure e).1,
           mkWorld (dev w)
             (trace w ++ Log DEBUG "Connecting" :: (connect_failure e).2))
      end
  | Some _ =>
      (Ok tt,
       mkWorld (set_client_count (_client_count (dev w) + 1) (dev w))
         (trace w ++ [Log DEBUG "Connection reused"]))
  end.
Proof.
  unfold connect_enter, mbind, M_bind, self, raise, emit, debug, assign, requested.
  simpl. destruct (_client (dev w)) eqn:Hc; simpl; [reflexivity|].
  destruct opening as [[]|e]; simpl.
  - by rewrite <- app_assoc.
  - destruct e; simpl; rewrite <- ?app_assoc; reflexivity.
Qed.

(** C7.  When the device has no client and no holder and opening the link
    times out, [connect] raises [IdealLedTimeout], which is not the
    [IdealLedBleakError] it raises for a transport error, and assigns no
    attribute: the count is still 0, there is still no client and nothing
    was pushed on the exit stack. *)
Theorem connect_timeout (w : World) (t : option target) :
  _client (dev w) = None →
  _client_count (dev w) = 0 →
  connect_enter t (Raise asyncio_TimeoutError) w
  = (Raise (IdealLedTimeout "Timeout on connect"),
     mkWorld (dev w)
       (trace w ++ [Log DEBUG "Connecting"; Log DEBUG "Timeout on connect"]))
  ∧ (connect_enter t (Raise BleakError) w).1
    = Raise (IdealLedBleakError "Error on connect")
  ∧ IdealLedTimeout "Timeout on connect" ≠ IdealLedBleakError "Error on connect"
  ∧ _client (dev (connect_enter t (Raise asyncio_TimeoutError) w).2) = None
  ∧ _client_count (dev (connect_enter t (Raise asyncio_TimeoutError) w).2) = 0
  ∧ _client_stack (dev (connect_enter t (Raise asyncio_TimeoutError) w).2)
    = _client_stack (dev w).
Proof.
  intros Hc Hn. rewrite !connect_enter_eq, Hc. simpl.
  repeat split; try assumption. discriminate.
Qed.

Lemma connect_timeout_witness :
  connect_enter None (Raise asyncio_TimeoutError)
    (mkWorld (Device_init "00:11:22:33:44:55" default_keycode) [])
  = (Raise (IdealLedTimeout "Timeout on connect"),
     mkWorld (Device_init "00:11:22:33:44:55" default_keycode)
       [Log DEBUG "Connecting"; Log DEBUG "Timeout on connect"]).
Proof.
  exact (proj1 (connect_timeout
                  (mkWorld (Device_init "00:11:22:33:44:55" default_keycode) [])
                  None eq_refl eq_refl)).
Defined.

(** ** The connection count *)

Lemma emit_closes l w :
  foldr (fun c k => emit (LinkClose c);; k) (mret tt : M unit) l w
  = (Ok tt, mkWorld (dev w) (trace w ++ (LinkClose <$> l))).
Proof.
  revert w. induction l as [|c l IH]; intros w; simpl.
  - unfold mret, M_ret. by rewrite app_nil_r, world_eta.
  - unfold mbind, M_bind, emit at 1. simpl. rewrite IH. simpl.
    by rewrite <- app_assoc.
Qed.

Lemma connect_exit_eq closing w :
  connect_exit closing w =
  let n := _client_count (dev w) - 1 in
  if bool_decide (n = 0)
  then
    (closing,
     mkWorld
       (mkDevice (address (dev w)) (_keycode (dev w)) (state (dev w))
          (_lock (dev w)) None n [])
       (trace w ++ Log DEBUG "Disconnected" :: (LinkClose <$> _client_stack (dev w))))
  else
    (Ok tt, mkWorld (set_client_count n (dev w)) (trace w)).
Proof.
  unfold connect_exit. unfold mbind at 1 2, M_bind, assign at 1, self. simpl.
  case_bool_decide as Hn; simpl; [|reflexivity].
  unfold mbind at 1 2 3, M_bind, assign, debug, emit at 1. simpl.
  unfold mbind at 1, M_bind. rewrite emit_closes. simpl.
  unfold lift. rewrite <- app_assoc. simpl.
  destruct closing as [[]|e]; reflexivity.
Qed.

Lemma same_connection_refl d : same_connection d d.
Proof. by repeat split. Qed.

Lemma same_connection_set_state s d : same_connection d (set_state s d).
Proof. by repeat split. Qed.

Lemma characteristic_callback_connection data w :
  same_connection (dev w) (dev (characteristic_callback data w).2).
Proof.
  rewrite characteristic_callback_eq. repeat case_match; simpl;
    auto using same_connection_refl, same_connection_set_state.
Qed.

Lemma detection_callback_raw_connection data rssi w :
  same_connection (dev w) (dev (detection_callback_raw data rssi w).2).
Proof.
  rewrite detection_callback_raw_eq. repeat case_match; simpl;
    auto using same_connection_refl, same_connection_set_state.
Qed.

Lemma device_method_connection m w :
  device_method m → same_connection (dev w) (dev (m w).2).
Proof.
  intros [data|device adv|data rssi|reading|cmd writing].
  - apply characteristic_callback_connection.
  - unfold detection_callback. case_match.
    + apply detection_callback_raw_connection.
    + apply same_connection_refl.
  - apply detection_callback_raw_connection.
  - unfold update, assert_connected, mbind, M_bind, self, raise, emit, debug.
    simpl. destruct (_client (dev w)); simpl; [|apply same_connection_refl].
    destruct reading as [databytes|e]; simpl.
    + apply (characteristic_callback_connection databytes
               (mkWorld (dev w) (trace w ++ [GattRead UUID_RX]))).
    + destruct e; simpl; apply same_connection_refl.
  - rewrite send_command_eq. repeat case_match; simpl;
      auto using same_connection_refl, same_connection_set_state.
Qed.

Lemma step_counted sys sys' : step sys sys' → counted sys → counted sys'.
Proof.
  unfold counted.
  intros [t opening w w' h Hl He|t opening e w w' h Hl He|w h Hl Hh|w h Hl
         |closing r w w' h Hl He|m r w w' h Hm He]; simpl; intros (Hn & Hc & Hs).
  - rewrite connect_enter_eq in He.
    destruct (_client (dev w)) as [c|] eqn:Ec.
    + injection He as <-. simpl. rewrite Ec. repeat split; try lia.
      * by eexists.
      * assumption.
    + destruct opening as [[]|e]; [|discriminate]. injection He as <-. simpl.
      assert (¬ 0 < _client_count (dev w)) by (intros H; by apply Hc, is_Some_None in H).
      repeat split; try lia.
      * by eexists.
      * by rewrite Hs.
  - rewrite connect_enter_eq in He.
    destruct (_client (dev w)) as [c|] eqn:Ec; [discriminate|].
    destruct opening as [[]|e']; [discriminate|]. injection He as _ <-. simpl.
    by rewrite Ec.
  - done.
  - done.
  - rewrite connect_exit_eq in He. cbv zeta in He.
    case_bool_decide as E; injection He as _ <-; simpl.
    + repeat split; try lia.
      * intros H. by apply is_Some_None in H.
    + split; [lia|]. split; [|assumption]. split.
      * intros _. lia.
      * intros _. apply Hc. lia.
  - destruct (device_method_connection m w Hm) as (_ & Ec & En & Es).
    rewrite He in Ec, En, Es. simpl in *. by rewrite Ec, En, Es.
Qed.

Lemma reachable_counted sys : reachable sys → counted sys.
Proof.
  intros (a & k & H). revert sys H. apply rtc_ind_r.
  - unfold counted. simpl. repeat split; try lia.
    intros H. by apply is_Some_None in H.
  - intros y z _ Hstep IH. by eapply step_counted.
Qed.



(** Two holders on one link: opened once, closed once by the last to leave. *)
Example two_holders :
  let w0 := mkWorld (Device_init "00:11:22:33:44:55" default_keycode) [] in
  let c := mkBleakClient (ByAddress "00:11:22:33:44:55") 30 in
  let w1 := (connect_enter None (Ok tt) w0).2 in
  let w2 := (connect_enter None (Ok tt) w1).2 in
  let w3 := (connect_exit (Ok tt) w2).2 in
  let w4 := (connect_exit (Ok tt) w3).2 in
  (_client (dev w2), _client_count (dev w2)) = (Some c, 2)
  ∧ (_client (dev w3), _client_count (dev w3)) = (Some c, 1)
  ∧ dev w4 = dev w0
  ∧ trace w4 = [ Log DEBUG "Connecting"; LinkOpen c;
                 Log DEBUG "Connection reused";
                 Log DEBUG "Disconnected"; LinkClose c ].
Proof. vm_compute. repeat split. Qed.

(** ** The discovery filter *)


(** The module binds no [UUID_SERVICE]: every call of the filter raises
    [NameError] at its first test. *)
Lemma device_filter_unbound (device : BLEDevice)
    (advertisement_data : AdvertisementData) :
  device_filter module_globals device advertisement_data
  = Raise (NameError "UUID_SERVICE").
Proof. reflexivity. Qed.

(** C1, on the code.  For a peripheral named ["IDEAL_LED"] that advertises
    no service UUID and no manufacturer data, [device_filter] does not
    return: it raises [NameError] for [UUID_SERVICE]. *)
Theorem device_filter_by_name_raises :
  device_filter module_globals
    (mkBLEDevice "00:11:22:33:44:55" (Some "IDEAL_LED"))
    (mkAdvertisementData [] ∅ (-60))
  = Raise (NameError "UUID_SERVICE").
Proof. vm_compute. reflexivity. Qed.


(** * Further properties of the code *)

(** ** Bits and advertisement bytes *)

(** X1.  For a bit number that is not negative, [_bittest] is the test of
    that bit of the integer. *)
Theorem _bittest_testbit (data bit : Z) :
  0 <= bit → _bittest data bit = Z.testbit data bit.
Proof.
  intros Hbit. unfold _bittest. rewrite Z.shiftl_1_l.
  destruct (Z.testbit data bit) eqn:E.
  - assert (Z.land data (2 ^ bit) = 2 ^ bit) as ->.
    { apply Z.bits_inj'. intros m Hm.
      rewrite Z.land_spec, Z.pow2_bits_eqb by lia.
      destruct (Z.eqb_spec bit m) as [<-|]; [by rewrite E|by rewrite andb_false_r]. }
    assert (0 < 2 ^ bit) by (apply Z.pow_pos_nonneg; lia).
    destruct (Z.eqb_spec (2 ^ bit) 0); [lia|reflexivity].
  - assert (Z.land data (2 ^ bit) = 0) as ->; [|reflexivity].
    apply Z.bits_inj'. intros m Hm.
    rewrite Z.land_spec, Z.pow2_bits_eqb, Z.bits_0 by lia.
    destruct (Z.eqb_spec bit m) as [<-|]; [by rewrite E|by rewrite andb_false_r].
Qed.

Lemma _bittest_testbit_witness : _bittest 6 2 = Z.testbit 6 2.
Proof. apply (_bittest_testbit 6 2). lia. Defined.



(** [startswith] compares the prefix with as many leading bytes. *)
Lemma startswith_take (data prefix : bytes) :
  startswith data prefix = true ↔ take (length prefix) data = prefix.
Proof.
  revert data. induction prefix as [|p prefix IH]; intros data.
  - by destruct data.
  - destruct data as [|b data]; simpl; [split; discriminate|].
    rewrite andb_true_iff, bool_decide_eq_true, IH. split.
    + by intros [-> ->].
    + intros [= -> Ht]. split; [reflexivity|exact Ht].
Qed.

(** X3.  An advertisement that fails the manufacturer test of
    [device_filter] (no entry for the manufacturer identifier, or an entry
    that does not start with the last six bytes of the announce prefix)
    makes [detection_callback] return normally with the device as it was. *)
Theorem foreign_advertisement_ignored (device : BLEDevice)
    (advertisement_data : AdvertisementData) (w : World) :
  startswith
    (default [] (manufacturer_data advertisement_data !! ANNOUNCE_MANUFACTURER))
    (drop 2 ANNOUNCE_PREFIX) = false →
  (detection_callback device advertisement_data w).1 = Ok tt
  ∧ dev (detection_callback device advertisement_data w).2 = dev w.
Proof.
  intros Hfail. unfold detection_callback.
  destruct (manufacturer_data advertisement_data !! ANNOUNCE_MANUFACTURER)
    as [data|]; [|by split].
  change (startswith data (drop 2 ANNOUNCE_PREFIX) = false) in Hfail.
  rewrite detection_callback_raw_eq.
  rewrite bool_decide_eq_true_2; [by split|].
  intros Heq. unfold bytes_slice in Heq. simpl in Heq.
  injection Heq as Heq.
  assert (startswith data (drop 2 ANNOUNCE_PREFIX) = true) as Hs; [|congruence].
  apply startswith_take. exact Heq.
Qed.

Lemma foreign_advertisement_ignored_witness :
  (detection_callback (mkBLEDevice "00:11:22:33:44:55" None)
     (mkAdvertisementData []
        {[ ANNOUNCE_MANUFACTURER := list_byte_of_string "ODFJAX" ]} (-60))
     (mkWorld (Device_init "00:11:22:33:44:55" default_keycode) [])).1 = Ok tt
  ∧ dev (detection_callback (mkBLEDevice "00:11:22:33:44:55" None)
           (mkAdvertisementData []
              {[ ANNOUNCE_MANUFACTURER := list_byte_of_string "ODFJAX" ]} (-60))
           (mkWorld (Device_init "00:11:22:33:44:55" default_keycode) [])).2
    = Device_init "00:11:22:33:44:55" default_keycode.
Proof.
  apply (foreign_advertisement_ignored (mkBLEDevice "00:11:22:33:44:55" None)
           (mkAdvertisementData []
              {[ ANNOUNCE_MANUFACTURER := list_byte_of_string "ODFJAX" ]} (-60))
           (mkWorld (Device_init "00:11:22:33:44:55" default_keycode) [])).
  vm_compute. reflexivity.
Defined.

(** X4.  An advertisement that starts with the announce prefix but has
    fewer than fifteen bytes makes [detection_callback_raw] raise
    [IndexError]; nothing is assigned and nothing is logged. *)
Theorem short_advertisement_raises (data : bytes) (rssi : Z) (w : World) :
  bytes_slice data 0 8 = ANNOUNCE_PREFIX →
  (length data < 15)%nat →
  detection_callback_raw data rssi w = (Raise IndexError, w).
Proof.
  intros Hp Hlen. rewrite detection_callback_raw_eq.
  rewrite bool_decide_eq_false_2 by (intros Hne; by apply Hne).
  by rewrite replace_from_manufacture_data_short.
Qed.

Lemma short_advertisement_raises_witness :
  detection_callback_raw (ANNOUNCE_PREFIX ++ [x02; x01; x07]%byte) (-60)
    (mkWorld (Device_init "00:11:22:33:44:55" default_keycode) [])
  = (Raise IndexError,
     mkWorld (Device_init "00:11:22:33:44:55" default_keycode) []).
Proof.
  apply (short_advertisement_raises (ANNOUNCE_PREFIX ++ [x02; x01; x07]%byte)
           (-60) (mkWorld (Device_init "00:11:22:33:44:55" default_keycode) [])).
  - reflexivity.
  - simpl. lia.
Defined.

(** X5.  The advertisement decoder reads bytes 8, 9, 10, 11, 13 and 14 and
    nothing else: two payloads that agree there (in content or in absence)
    give the same result, State or exception. *)
Theorem manufacture_data_reads_six_bytes (self : State) (data data' : bytes)
    (changes : list change) :
  (∀ i : nat, i ∈ [8; 9; 10; 11; 13; 14]%nat → data !! i = data' !! i) →
  replace_from_manufacture_data self data changes
  = replace_from_manufacture_data self data' changes.
Proof.
  intros H. unfold replace_from_manufacture_data, bytes_getitem.
  rewrite (H 8%nat), (H 9%nat), (H 10%nat), (H 11%nat), (H 13%nat), (H 14%nat)
    by set_solver.
  reflexivity.
Qed.

Lemma manufacture_data_reads_six_bytes_witness :
  replace_from_manufacture_data State_default
    (ANNOUNCE_PREFIX ++ [x02; x01; x07; x05; x00; x28; x0a]%byte) [kw_rssi (-60)]
  = replace_from_manufacture_data State_default
      (list_byte_of_string "????????" ++ [x02; x01; x07; x05; xff; x28; x0a; x63]%byte)
      [kw_rssi (-60)].
Proof.
  apply (manufacture_data_reads_six_bytes State_default
           (ANNOUNCE_PREFIX ++ [x02; x01; x07; x05; x00; x28; x0a]%byte)
           (list_byte_of_string "????????" ++ [x02; x01; x07; x05; xff; x28; x0a; x63]%byte)
           [kw_rssi (-60)]).
  intros i Hi.
  repeat (apply elem_of_cons in Hi as [->|Hi]; [reflexivity|]).
  by apply elem_of_nil in Hi.
Defined.

Lemma free_rssi_only self b8 b9 b10 b11 b13 b14 changes :
  Forall (fun c => kw_name c ∉
            kw_name <$> manufacture_fields self b8 b9 b10 b11 b13 b14) changes →
  rssi_only changes.
Proof.
  intros H. eapply Forall_impl; [exact H|]. intros c Hc. simpl in Hc.
  destruct c; try reflexivity; exfalso; apply Hc; set_solver.
Qed.

(** X6.  The advertisement decoder returns a State exactly when the payload
    has fifteen bytes or more and the caller's keywords name nothing but
    [rssi]. *)
Theorem manufacture_data_succeeds_iff (self : State) (data : bytes)
    (changes : list change) :
  (∃ s', replace_from_manufacture_data self data changes = Ok s')
  ↔ (15 <= length data)%nat ∧ rssi_only changes.
Proof.
  split.
  - intros [s' H]. split.
    + destruct (le_lt_dec 15 (length data)) as [|Hlt]; [assumption|].
      rewrite replace_from_manufacture_data_short in H by assumption.
      discriminate.
    + destruct (replace_from_manufacture_data_inv _ _ _ _ H)
        as (b8 & b9 & b10 & b11 & b13 & b14 & H8 & H9 & H10 & H11 & H13 & H14).
      rewrite (replace_from_manufacture_data_unfold _ _ _ _ _ _ _ _ _
                 H8 H9 H10 H11 H13 H14) in H.
      apply call_replace_Ok in H as [_ Hfree]. by eapply free_rssi_only.
  - intros [Hlen Hch].
    destruct (replace_from_manufacture_data_total self data changes Hlen Hch)
      as (? & ? & ? & ? & ? & ? & _ & _ & _ & _ & _ & _ & Hr).
    eexists. exact Hr.
Qed.

(** ** Payloads the characteristic decoder refuses *)

Lemma str_getitem_raises text i e : str_getitem text i = Raise e → e = IndexError.
Proof. unfold str_getitem. case_match; congruence. Qed.

Lemma call_replace_nil self explicit :
  call_replace self explicit [] = Ok (replace self explicit).
Proof. unfold call_replace. simpl. by rewrite app_nil_r. Qed.

Lemma tx_char_raises self databytes e :
  replace_from_tx_char self databytes [] = Raise e →
  e = IndexError ∨ is_ValueError e = true.
Proof.
  unfold replace_from_tx_char.
  destruct (decode_ascii databytes) as [text|e0] eqn:Hd; simpl.
  2: { intros [= <-]. apply decode_ascii_raises in Hd as ->. by right. }
  destruct (str_getitem text 4) as [c4|e0] eqn:H4; simpl.
  2: { intros [= <-]. apply str_getitem_raises in H4 as ->. by left. }
  destruct (int_of_char c4) as [fan|e0] eqn:Hfan; simpl.
  2: { intros [= <-]. apply int_of_str_raises in Hfan as ->. by right. }
  destruct (str_getitem text 5) as [c5|e0] eqn:H5; simpl.
  2: { intros [= <-]. apply str_getitem_raises in H5 as ->. by left. }
  destruct (str_getitem text 6) as [c6|e0] eqn:H6; simpl.
  2: { intros [= <-]. apply str_getitem_raises in H6 as ->. by left. }
  destruct (str_getitem text 7) as [c7|e0] eqn:H7; simpl.
  2: { intros [= <-]. apply str_getitem_raises in H7 as ->. by left. }
  destruct (str_getitem text 8) as [c8|e0] eqn:H8; simpl.
  2: { intros [= <-]. apply str_getitem_raises in H8 as ->. by left. }
  destruct (str_getitem text 9) as [c9|e0] eqn:H9; simpl.
  2: { intros [= <-]. apply str_getitem_raises in H9 as ->. by left. }
  destruct (int_of_str (str_slice text 10 13)) as [dim|e0] eqn:Hdim; simpl.
  2: { intros [= <-]. apply int_of_str_raises in Hdim as ->. by right. }
  destruct (int_of_str (str_slice text 13 15)) as [period|e0] eqn:Hper; simpl.
  2: { intros [= <-]. apply int_of_str_raises in Hper as ->. by right. }
  rewrite call_replace_nil. discriminate.
Qed.

(** The decoder needs the first digit of the period, at byte 13. *)
Lemma tx_char_min_length self databytes changes s' :
  replace_from_tx_char self databytes changes = Ok s' →
  (14 <= length databytes)%nat.
Proof.
  intros H. apply replace_from_tx_char_inv in H
    as (text & c4 & c5 & c6 & c7 & c8 & c9 & fan & dim & period & Hd & _ & _
        & _ & _ & _ & _ & _ & _ & Hper & _).
  apply decode_ascii_Ok in Hd as ->.
  destruct (le_lt_dec 14 (length databytes)) as [|Hlt]; [assumption|].
  unfold str_slice in Hper. rewrite substring_string_of_list_byte in Hper.
  rewrite drop_ge in Hper by lia. discriminate.
Qed.

(** X7.  A characteristic payload that starts with the keycode and has
    fewer than fourteen bytes is never decoded: the callback raises
    [IndexError] or a [ValueError] and assigns nothing. *)
Theorem short_characteristic_raises (w : World) (data : bytes) :
  bytes_slice data 0 4 = _keycode (dev w) →
  (length data < 14)%nat →
  ∃ e,
    characteristic_callback data w
    = (Raise e, mkWorld (dev w) (trace w ++ [entered_log]))
    ∧ (e = IndexError ∨ is_ValueError e = true).
Proof.
  intros Hkey Hlen. rewrite characteristic_callback_eq.
  rewrite bool_decide_eq_false_2 by (intros Hne; by apply Hne).
  destruct (replace_from_tx_char (state (dev w)) data []) as [s|e] eqn:E.
  - apply tx_char_min_length in E. lia.
  - exists e. split; [reflexivity|]. by eapply tx_char_raises.
Qed.

Lemma short_characteristic_raises_witness :
  ∃ e,
    characteristic_callback (list_byte_of_string "12343LNCFK050")
      (mkWorld (Device_init "00:11:22:33:44:55" default_keycode) [])
    = (Raise e,
       mkWorld (Device_init "00:11:22:33:44:55" default_keycode) [entered_log])
    ∧ (e = IndexError ∨ is_ValueError e = true).
Proof.
  apply (short_characteristic_raises
           (mkWorld (Device_init "00:11:22:33:44:55" default_keycode) [])
           (list_byte_of_string "12343LNCFK050")).
  - reflexivity.
  - simpl. lia.
Defined.

(** X8.  A payload of exactly fourteen bytes is decoded: the period is read
    from the single digit at byte 13. *)
Theorem fourteen_byte_payload (self : State) (pre : bytes)
    (f c5 c6 c7 c8 c9 d1 d2 d3 p1 : byte) (vf v1 v2 v3 q1 : Z) :
  length pre = 4%nat →
  forallb (fun b => byte_int b <? 128)
    (pre ++ [f; c5; c6; c7; c8; c9; d1; d2; d3; p1]) = true →
  digit_value (ascii_of_byte f) = Some vf →
  digit_value (ascii_of_byte d1) = Some v1 →
  digit_value (ascii_of_byte d2) = Some v2 →
  digit_value (ascii_of_byte d3) = Some v3 →
  digit_value (ascii_of_byte p1) = Some q1 →
  replace_from_tx_char self (pre ++ [f; c5; c6; c7; c8; c9; d1; d2; d3; p1]) []
  = Ok {| light_on := bool_decide (c5 = "L"%byte);
          after_cooking_fan_speed := after_cooking_fan_speed self;
          after_cooking_on := bool_decide (c6 = "N"%byte);
          carbon_filter_available := bool_decide (c7 = "C"%byte);
          fan_speed := vf;
          grease_filter_full := bool_decide (c8 = "F"%byte);
          carbon_filter_full := bool_decide (c9 = "K"%byte);
          dim_level :=
            _range_check_dim (100 * v1 + 10 * v2 + v3) (dim_level self);
          periodic_venting := _range_check_period q1 (periodic_venting self);
          periodic_venting_on := periodic_venting_on self;
          rssi := rssi self |}.
Proof.
  intros Hpre Hascii Hf H1 H2 H3 Hq1.
  destruct pre as [|k0 [|k1 [|k2 [|k3 [|]]]]]; try discriminate Hpre.
  set (data := [k0; k1; k2; k3] ++ [f; c5; c6; c7; c8; c9; d1; d2; d3; p1]) in *.
  rewrite (replace_from_tx_char_unfold self data []
             (string_of_list_byte data)
             (ascii_of_byte f) (ascii_of_byte c5) (ascii_of_byte c6)
             (ascii_of_byte c7) (ascii_of_byte c8) (ascii_of_byte c9)
             vf (100 * v1 + 10 * v2 + v3) q1).
  - rewrite call_replace_nil. simpl.
    change "L"%char with (ascii_of_byte "L"%byte).
    change "N"%char with (ascii_of_byte "N"%byte).
    change "C"%char with (ascii_of_byte "C"%byte).
    change "F"%char with (ascii_of_byte "F"%byte).
    change "K"%char with (ascii_of_byte "K"%byte).
    rewrite !ascii_eqb_of_byte.
    by destruct self.
  - by apply decode_ascii_plain.
  - reflexivity.
  - by apply int_of_char_digit.
  - reflexivity.
  - reflexivity.
  - reflexivity.
  - reflexivity.
  - reflexivity.
  - by apply int_of_str_digits3.
  - by apply int_of_char_digit.
Qed.

Lemma fourteen_byte_payload_witness :
  replace_from_tx_char State_default (list_byte_of_string "12343LNCFK0507") []
  = Ok (mkState true 0 true true 3 true true 50 7 false 0).
Proof.
  apply (fourteen_byte_payload State_default (list_byte_of_string "1234")
           "3" "L" "N" "C" "F" "K" "0" "5" "0" "7" 3 0 5 0 7)%byte;
    reflexivity.
Defined.

(** X9.  A byte of 128 or more anywhere in a payload that starts with the
    keycode, also after byte 14, makes the callback raise
    [UnicodeDecodeError] and assign nothing. *)
Theorem non_ascii_byte_raises (w : World) (data : bytes) (i : nat) (b : byte) :
  bytes_slice data 0 4 = _keycode (dev w) →
  data !! i = Some b →
  128 <= byte_int b →
  characteristic_callback data w
  = (Raise UnicodeDecodeError, mkWorld (dev w) (trace w ++ [entered_log])).
Proof.
  intros Hkey Hb Hhigh. rewrite characteristic_callback_eq.
  rewrite bool_decide_eq_false_2 by (intros Hne; by apply Hne).
  unfold replace_from_tx_char, decode_ascii.
  destruct (forallb _ data) eqn:E; [|reflexivity].
  rewrite forallb_forall in E.
  assert (In b data) as Hin by (apply list_elem_of_In; by eapply list_elem_of_lookup_2).
  apply E, Z.ltb_lt in Hin. lia.
Qed.

Lemma non_ascii_byte_raises_witness :
  characteristic_callback (list_byte_of_string "12343LNCFK05030" ++ [xe9]%byte)
    (mkWorld (Device_init "00:11:22:33:44:55" default_keycode) [])
  = (Raise UnicodeDecodeError,
     mkWorld (Device_init "00:11:22:33:44:55" default_keycode) [entered_log]).
Proof.
  apply (non_ascii_byte_raises
           (mkWorld (Device_init "00:11:22:33:44:55" default_keycode) [])
           (list_byte_of_string "12343LNCFK05030" ++ [xe9]%byte) 15 xe9).
  - reflexivity.
  - reflexivity.
  - vm_compute. discriminate.
Defined.

(** X10.  Whatever [characteristic_callback] raises is an [IndexError] or a
    [ValueError] (which [UnicodeDecodeError] is), and it raises only for a
    payload that starts with the keycode. *)
Theorem characteristic_callback_raises (data : bytes) (w w' : World) (e : exc) :
  characteristic_callback data w = (Raise e, w') →
  (e = IndexError ∨ is_ValueError e = true)
  ∧ bytes_slice data 0 4 = _keycode (dev w)
  ∧ dev w' = dev w.
Proof.
  rewrite characteristic_callback_eq. case_bool_decide as Hk; [discriminate|].
  destruct (replace_from_tx_char (state (dev w)) data []) as [s|e0] eqn:E;
    [discriminate|].
  intros [= <- <-]. split; [by eapply tx_char_raises|]. split; [|reflexivity].
  by destruct (decide (bytes_slice data 0 4 = _keycode (dev w))).
Qed.

Lemma characteristic_callback_raises_witness :
  (IndexError = IndexError ∨ is_ValueError IndexError = true)
  ∧ bytes_slice (list_byte_of_string "12343") 0 4
    = _keycode (Device_init "00:11:22:33:44:55" default_keycode)
  ∧ dev (mkWorld (Device_init "00:11:22:33:44:55" default_keycode) [entered_log])
    = Device_init "00:11:22:33:44:55" default_keycode.
Proof.
  apply (characteristic_callback_raises (list_byte_of_string "12343")
           (mkWorld (Device_init "00:11:22:33:44:55" default_keycode) [])
           (mkWorld (Device_init "00:11:22:33:44:55" default_keycode) [entered_log])
           IndexError).
  reflexivity.
Defined.

(** ** Failures of the methods *)

Lemma update_eq reading w :
  update reading w =
  match _client (dev w) with
  | None => (Raise AssertionError, w)
  | Some _ =>
      match reading with
      | Ok databytes =>
          characteristic_callback databytes
            (mkWorld (dev w) (trace w ++ [GattRead UUID_RX]))
      | Raise e =>
          (Raise (read_failure e).1,
           mkWorld (dev w) (trace w ++ GattRead UUID_RX :: (read_failure e).2))
      end
  end.
Proof.
  unfold update, assert_connected, mbind, M_bind, self, raise, emit, debug.
  simpl. destruct (_client (dev w)); simpl; [|reflexivity].
  destruct reading as [databytes|e]; simpl; [reflexivity|].
  destruct e; simpl; rewrite <- ?app_assoc; reflexivity.
Qed.

(** What [characteristic_callback] returns and assigns depends on the
    device, not on the trace. *)
Lemma characteristic_callback_dev data w1 w2 :
  dev w1 = dev w2 →
  (characteristic_callback data w1).1 = (characteristic_callback data w2).1
  ∧ dev (characteristic_callback data w1).2
    = dev (characteristic_callback data w2).2.
Proof.
  intros H. rewrite !characteristic_callback_eq, H.
  case_bool_decide; simpl; [by split|].
  destruct (replace_from_tx_char _ data []); simpl; by split.
Qed.

Lemma characteristic_callback_failure data w e w' :
  characteristic_callback data w = (Raise e, w') → dev w' = dev w.
Proof.
  rewrite characteristic_callback_eq. repeat case_match; try discriminate.
  by intros [= _ <-].
Qed.

Lemma detection_callback_raw_failure data rssi w e w' :
  detection_callback_raw data rssi w = (Raise e, w') →
  w' = w ∧ bytes_slice data 0 8 = ANNOUNCE_PREFIX
  ∧ (length data < 15)%nat ∧ e = IndexError.
Proof.
  rewrite detection_callback_raw_eq. case_bool_decide as Hp; [discriminate|].
  assert (bytes_slice data 0 8 = ANNOUNCE_PREFIX) as Hpre
    by (by destruct (decide (bytes_slice data 0 8 = ANNOUNCE_PREFIX))).
  destruct (le_lt_dec 15 (length data)) as [Hge|Hlt].
  - destruct (replace_from_manufacture_data_total (state (dev w)) data
                [kw_rssi rssi] Hge)
      as (? & ? & ? & ? & ? & ? & _ & _ & _ & _ & _ & _ & ->);
      [repeat constructor|discriminate].
  - rewrite replace_from_manufacture_data_short by assumption.
    by intros [= <- <-].
Qed.

(** X11.  A method of [Device] that raises has assigned nothing: the State
    and the connection attributes are those before the call. *)
Theorem failure_assigns_nothing (m : M unit) (w w' : World) (e : exc) :
  device_method m →
  m w = (Raise e, w') →
  dev w' = dev w.
Proof.
  intros [data|dv adv|data rssi|reading|cmd writing] H.
  - by eapply characteristic_callback_failure.
  - unfold detection_callback in H. case_match; [|discriminate].
    by apply detection_callback_raw_failure in H as [-> _].
  - by apply detection_callback_raw_failure in H as [-> _].
  - rewrite update_eq in H. destruct (_client (dev w)); [|by injection H as _ <-].
    destruct reading as [databytes|e0].
    + by apply characteristic_callback_failure in H.
    + by injection H as _ <-.
  - rewrite send_command_eq in H. destruct (_client (dev w)); [|by injection H as _ <-].
    destruct (fromhex cmd); [|by injection H as _ <-].
    destruct writing as [[]|e0]; [discriminate|]. by injection H as _ <-.
Qed.

Lemma failure_assigns_nothing_witness :
  dev (mkWorld connected_device
         [GattWrite UUID_RX [x84; xdd]%byte true; Log DEBUG "Timeout on write"])
  = dev (mkWorld connected_device []).
Proof.
  apply (failure_assigns_nothing
           (send_command "84dd" (Raise asyncio_TimeoutError))
           (mkWorld connected_device [])
           (mkWorld connected_device
              [GattWrite UUID_RX [x84; xdd]%byte true; Log DEBUG "Timeout on write"])
           (IdealLedTimeout EmptyString)).
  - constructor.
  - vm_compute. reflexivity.
Defined.

(** X12.  [detection_callback] raises only [IndexError], and only for an
    advertisement whose entry for the manufacturer identifier starts with
    the last six bytes of the announce prefix and has fewer than thirteen
    bytes; nothing is assigned or logged then. *)
Theorem detection_callback_raises (dv : BLEDevice)
    (advertisement_data : AdvertisementData) (w w' : World) (e : exc) :
  detection_callback dv advertisement_data w = (Raise e, w') →
  e = IndexError ∧ w' = w
  ∧ ∃ data,
      manufacturer_data advertisement_data !! ANNOUNCE_MANUFACTURER = Some data
      ∧ startswith data (drop 2 ANNOUNCE_PREFIX) = true
      ∧ (length data < 13)%nat.
Proof.
  unfold detection_callback.
  destruct (manufacturer_data advertisement_data !! ANNOUNCE_MANUFACTURER)
    as [data|]; [|discriminate].
  intros H. apply detection_callback_raw_failure in H as (-> & Hp & Hlen & ->).
  do 2 (split; [reflexivity|]). exists data. split; [reflexivity|]. split.
  - apply startswith_take. unfold bytes_slice in Hp. simpl in Hp.
    by injection Hp.
  - rewrite length_app in Hlen. simpl in Hlen. lia.
Qed.

Lemma detection_callback_raises_witness :
  IndexError = IndexError
  ∧ mkWorld (Device_init "00:11:22:33:44:55" default_keycode) []
    = mkWorld (Device_init "00:11:22:33:44:55" default_keycode) []
  ∧ ∃ data,
      manufacturer_data
        (mkAdvertisementData []
           {[ ANNOUNCE_MANUFACTURER := list_byte_of_string "ODFJAR" ]} (-60))
        !! ANNOUNCE_MANUFACTURER = Some data
      ∧ startswith data (drop 2 ANNOUNCE_PREFIX) = true
      ∧ (length data < 13)%nat.
Proof.
  apply (detection_callback_raises (mkBLEDevice "00:11:22:33:44:55" None)
           (mkAdvertisementData []
              {[ ANNOUNCE_MANUFACTURER := list_byte_of_string "ODFJAR" ]} (-60))
           (mkWorld (Device_init "00:11:22:33:44:55" default_keycode) [])
           (mkWorld (Device_init "00:11:22:33:44:55" default_keycode) [])
           IndexError).
  vm_compute. reflexivity.
Defined.

(** X13.  On a device without a client, [update] and [send_command] raise
    [AssertionError] before they touch the radio: nothing is read, written,
    logged or assigned. *)
Theorem disconnected_methods_assert (w : World) :
  _client (dev w) = None →
  (∀ reading, update reading w = (Raise AssertionError, w))
  ∧ (∀ cmd writing, send_command cmd writing w = (Raise AssertionError, w)).
Proof.
  intros Hc. split; intros.
  - by rewrite update_eq, Hc.
  - by rewrite send_command_eq, Hc.
Qed.

Lemma disconnected_methods_assert_witness :
  (∀ reading,
     update reading (mkWorld (Device_init "00:11:22:33:44:55" default_keycode) [])
     = (Raise AssertionError,
        mkWorld (Device_init "00:11:22:33:44:55" default_keycode) []))
  ∧ (∀ cmd writing,
       send_command cmd writing
         (mkWorld (Device_init "00:11:22:33:44:55" default_keycode) [])
       = (Raise AssertionError,
          mkWorld (Device_init "00:11:22:33:44:55" default_keycode) [])).
Proof.
  apply (disconnected_methods_assert
           (mkWorld (Device_init "00:11:22:33:44:55" default_keycode) [])).
  reflexivity.
Defined.

(** X14.  On a device with a client, [update] turns a timeout of the read
    into [IdealLedTimeout] and a [BleakError] into [IdealLedBleakError],
    assigning nothing in either case; when the read succeeds it returns,
    raises and assigns what [characteristic_callback] does on the bytes
    read. *)
Theorem update_outcomes (w : World) (c : BleakClient) :
  _client (dev w) = Some c →
  (update (Raise asyncio_TimeoutError) w).1 = Raise (IdealLedTimeout EmptyString)
  ∧ (update (Raise BleakError) w).1
    = Raise (IdealLedBleakError "Failed to update device")
  ∧ (∀ e, dev (update (Raise e) w).2 = dev w)
  ∧ (∀ databytes,
       (update (Ok databytes) w).1 = (characteristic_callback databytes w).1
       ∧ dev (update (Ok databytes) w).2
         = dev (characteristic_callback databytes w).2).
Proof.
  intros Hc. rewrite !update_eq, Hc. simpl. do 2 (split; [reflexivity|]). split.
  - intros e. by rewrite update_eq, Hc.
  - intros databytes. rewrite update_eq, Hc.
    by apply characteristic_callback_dev.
Qed.

Lemma update_outcomes_witness :
  (update (Raise asyncio_TimeoutError) (mkWorld connected_device [])).1
  = Raise (IdealLedTimeout EmptyString)
  ∧ (update (Raise BleakError) (mkWorld connected_device [])).1
    = Raise (IdealLedBleakError "Failed to update device")
  ∧ (∀ e, dev (update (Raise e) (mkWorld connected_device [])).2
          = connected_device)
  ∧ (∀ databytes,
       (update (Ok databytes) (mkWorld connected_device [])).1
       = (characteristic_callback databytes (mkWorld connected_device [])).1
       ∧ dev (update (Ok databytes) (mkWorld connected_device [])).2
         = dev (characteristic_callback databytes (mkWorld connected_device [])).2).
Proof.
  apply (update_outcomes (mkWorld connected_device [])
           (mkBleakClient (ByAddress "00:11:22:33:44:55") 30)).
  reflexivity.
Defined.

(** X15.  [send_command] changes the State only when the device has a
    client, the write succeeded and the command is, character for
    character, one of the two light commands; it then returns normally. *)
Theorem send_command_changes_state_only_if (w : World) (cmd : string)
    (writing : result unit) :
  state (dev (send_command cmd writing w).2) ≠ state (dev w) →
  is_Some (_client (dev w))
  ∧ writing = Ok tt
  ∧ (cmd = COMMAND_LIGHT_ON_HEX ∨ cmd = COMMAND_LIGHT_OFF_HEX)
  ∧ (send_command cmd writing w).1 = Ok tt.
Proof.
  rewrite send_command_eq.
  destruct (_client (dev w)) as [c|]; [|by intros []].
  destruct (fromhex cmd) as [data|e]; [|by intros []].
  destruct writing as [[]|e]; simpl; [|by intros []].
  unfold after_command. intros Hne.
  split; [by eexists|]. split; [reflexivity|]. split; [|reflexivity].
  repeat case_bool_decide; auto. by destruct Hne.
Qed.

Lemma send_command_changes_state_only_if_witness :
  is_Some (_client (dev (mkWorld connected_device [])))
  ∧ Ok tt = Ok tt
  ∧ (COMMAND_LIGHT_OFF_HEX = COMMAND_LIGHT_ON_HEX
     ∨ COMMAND_LIGHT_OFF_HEX = COMMAND_LIGHT_OFF_HEX)
  ∧ (send_command COMMAND_LIGHT_OFF_HEX (Ok tt) (mkWorld connected_device [])).1
    = Ok tt.
Proof.
  apply (send_command_changes_state_only_if (mkWorld connected_device [])
           COMMAND_LIGHT_OFF_HEX (Ok tt)).
  vm_compute. discriminate.
Defined.

Lemma fromhex_raises_aux text e :
  (fromhex text = Raise e → e = ValueError)
  ∧ (∀ c, fromhex (String c text) = Raise e → e = ValueError).
Proof.
  induction text as [|c' r [IH1 IH2]].
  - split; [discriminate|]. intros c. simpl. case_match; congruence.
  - assert (fromhex (String c' r) = Raise e → e = ValueError) as H1
      by apply IH2.
    split; [exact H1|]. intros c.
    change (fromhex (String c (String c' r))) with
      (if is_space c then fromhex (String c' r)
       else match hex_value c, hex_value c' with
            | Some top, Some bot =>
                match Byte.of_N (top * 16 + bot), fromhex r with
                | Some b, Ok tl => Ok (b :: tl)
                | _, Raise e => Raise e
                | None, _ => Raise ValueError
                end
            | _, _ => Raise ValueError
            end).
    destruct (is_space c); [exact H1|].
    destruct (hex_value c), (hex_value c'); try congruence.
    destruct (Byte.of_N _), (fromhex r) eqn:E; try congruence.
    all: intros [= <-]; by apply IH1.
Qed.

Lemma fromhex_raises text e : fromhex text = Raise e → e = ValueError.
Proof. apply fromhex_raises_aux. Qed.

(** X16.  On a device with a client, a command that is not pairs of
    hexadecimal digits makes [send_command] raise [ValueError] before any
    write: nothing reaches the radio and nothing is assigned. *)
Theorem bad_hex_command (w : World) (c : BleakClient) (cmd : string)
    (writing : result unit) :
  _client (dev w) = Some c →
  (∀ data, fromhex cmd ≠ Ok data) →
  send_command cmd writing w = (Raise ValueError, w).
Proof.
  intros Hc Hbad. rewrite send_command_eq, Hc.
  destruct (fromhex cmd) as [data|e] eqn:E; [by destruct (Hbad data)|].
  by apply fromhex_raises in E as ->.
Qed.

Lemma bad_hex_command_witness :
  send_command "LIGHT_ON" (Ok tt) (mkWorld connected_device [])
  = (Raise ValueError, mkWorld connected_device []).
Proof.
  apply (bad_hex_command (mkWorld connected_device [])
           (mkBleakClient (ByAddress "00:11:22:33:44:55") 30) "LIGHT_ON" (Ok tt)).
  - reflexivity.
  - intros data. vm_compute. discriminate.
Defined.

(** X17.  On a device with a client, a command of valid hexadecimal text is
    written once, to the characteristic [UUID_RX] and with a response
    requested, whatever the write then answers; besides that write
    [send_command] only logs. *)
Theorem send_command_writes_once (w : World) (c : BleakClient) (cmd : string)
    (data : bytes) (writing : result unit) :
  _client (dev w) = Some c →
  fromhex cmd = Ok data →
  ∃ logs,
    trace (send_command cmd writing w).2
    = trace w ++ GattWrite UUID_RX data true :: logs
    ∧ Forall (fun ev => ∃ msg, ev = Log DEBUG msg) logs.
Proof.
  intros Hc Hd. rewrite send_command_eq, Hc, Hd.
  destruct writing as [[]|e]; simpl.
  - by exists [].
  - exists (write_failure e).2. rewrite <- app_assoc. split; [reflexivity|].
    destruct e; simpl; repeat constructor; by eexists.
Qed.

Lemma send_command_writes_once_witness :
  ∃ logs,
    trace (send_command "84 dd" (Raise BleakError) (mkWorld connected_device [])).2
    = [] ++ GattWrite UUID_RX [x84; xdd]%byte true :: logs
    ∧ Forall (fun ev => ∃ msg, ev = Log DEBUG msg) logs.
Proof.
  apply (send_command_writes_once (mkWorld connected_device [])
           (mkBleakClient (ByAddress "00:11:22:33:44:55") 30) "84 dd"
           [x84; xdd]%byte (Raise BleakError)); reflexivity.
Defined.

(** ** The filter and the discovery flow with [UUID_SERVICE] bound *)


(** X19.  As the module stands, [_async_has_devices] answers [False] when
    nothing was discovered and raises [NameError] for [UUID_SERVICE] as soon
    as there is one service info to look at. *)
Theorem has_devices_unbound (service_infos : list BluetoothServiceInfoBleak) :
  _async_has_devices module_globals service_infos
  = match service_infos with
    | [] => Ok false
    | _ :: _ => Raise (NameError "UUID_SERVICE")
    end.
Proof. by destruct service_infos. Qed.



Example has_devices_finds_hood :
  _async_has_devices
    (<["UUID_SERVICE" := PUUID (mkUUID "0000fff0-0000-1000-8000-00805f9b34fb")]>
       module_globals)
    [ mkServiceInfo (mkBLEDevice "66:77:88:99:aa:bb" (Some "Speaker"))
        (mkAdvertisementData [] ∅ (-70));
      mkServiceInfo (mkBLEDevice "00:11:22:33:44:55" None)
        (mkAdvertisementData []
           {[ ANNOUNCE_MANUFACTURER := list_byte_of_string "ODFJAR" ]} (-60)) ]
  = Ok true.
Proof. vm_compute. reflexivity. Qed.

(** ** What holds in every state a device reaches *)

Lemma reachable_ind (P : World * nat → Prop) :
  (∀ address keycode, P (mkWorld (Device_init address keycode) [], 0%nat)) →
  (∀ sys sys', step sys sys' → P sys → P sys') →
  ∀ sys, reachable sys → P sys.
Proof.
  intros Hinit Hstep sys (a & k & H). revert sys H. apply rtc_ind_r.
  - apply Hinit.
  - intros y z _ Hyz IH. by eapply Hstep.
Qed.

Lemma reachable_init address keycode :
  reachable (mkWorld (Device_init address keycode) [], 0%nat).
Proof. exists address, keycode. apply rtc_refl. Qed.

Lemma reachable_step sys sys' : reachable sys → step sys sys' → reachable sys'.
Proof.
  intros (a & k & H) Hstep. exists a, k. by eapply rtc_r.
Qed.







Lemma step_body_held sys sys' : step sys sys' → body_held sys → body_held sys'.
Proof.
  unfold body_held.
  intros [t opening w w' h Hl He|t opening e w w' h Hl He|w h Hl Hh|w h Hl
         |closing r w w' h Hl He|m r w w' h Hm He]; simpl; intros Hk.
  - lia.
  - rewrite connect_enter_eq in He.
    destruct (_client (dev w)) as [c|]; [discriminate|].
    destruct opening as [[]|e']; [discriminate|]. injection He as _ <-.
    simpl. congruence.
  - by intros _.
  - discriminate.
  - rewrite connect_exit_eq in He. cbv zeta in He.
    case_bool_decide as E; injection He as _ <-; simpl; congruence.
  - destruct (device_method_connection m w Hm) as (El & _).
    rewrite He in El. simpl in El. by rewrite El.
Qed.





Lemma reachable_body_held sys : reachable sys → body_held sys.
Proof.
  revert sys. apply reachable_ind.
  - discriminate.
  - apply step_body_held.
Qed.





(** X23.  In every state a device reaches, while the lock is held for the
    body of an [async with device.connect()] the device has a client, so
    the assertion of [update] and of [send_command] holds there. *)
Theorem body_is_connected (sys : World * nat) :
  reachable sys →
  _lock (dev sys.1) = true →
  is_Some (_client (dev sys.1)) ∧ assert_connected sys.1 = (Ok tt, sys.1).
Proof.
  intros Hreach Hlock.
  destruct (reachable_counted sys Hreach) as (Hn & Hc & _).
  pose proof (reachable_body_held sys Hreach) as Hb.
  assert (is_Some (_client (dev sys.1))) as Hsome.
  { apply Hc. specialize (Hb Hlock). lia. }
  split; [assumption|].
  unfold assert_connected, mbind, M_bind, self. simpl.
  by destruct Hsome as [c ->].
Qed.

Lemma body_is_connected_witness :
  is_Some (_client connected_device)
  ∧ assert_connected
      (mkWorld connected_device
         [Log DEBUG "Connecting";
          LinkOpen (mkBleakClient (ByAddress "00:11:22:33:44:55") 30);
          Log DEBUG "Detection callback result: %s"])
    = (Ok tt,
       mkWorld connected_device
         [Log DEBUG "Connecting";
          LinkOpen (mkBleakClient (ByAddress "00:11:22:33:44:55") 30);
          Log DEBUG "Detection callback result: %s"]).
Proof.
  refine (body_is_connected
            (mkWorld connected_device
               [Log DEBUG "Connecting";
                LinkOpen (mkBleakClient (ByAddress "00:11:22:33:44:55") 30);
                Log DEBUG "Detection callback result: %s"],
             1%nat) _ eq_refl).
  exists "00:11:22:33:44:55", default_keycode.
  apply (rtc_l _ _
           (mkWorld
              (mkDevice "00:11:22:33:44:55" default_keycode State_default false
                 (Some (mkBleakClient (ByAddress "00:11:22:33:44:55") 30)) 1
                 [mkBleakClient (ByAddress "00:11:22:33:44:55") 30])
              [Log DEBUG "Connecting";
               LinkOpen (mkBleakClient (ByAddress "00:11:22:33:44:55") 30)],
            1%nat)).
  { apply (step_connect_enter None (Ok tt)); [reflexivity|].
    vm_compute. reflexivity. }
  apply (rtc_l _ _
           (mkWorld (set_lock false connected_device)
              [Log DEBUG "Connecting";
               LinkOpen (mkBleakClient (ByAddress "00:11:22:33:44:55") 30);
               Log DEBUG "Detection callback result: %s"],
            1%nat)).
  { apply (step_method
             (detection_callback_raw
                (ANNOUNCE_PREFIX ++ [x02; x01; x07; x05; x00; x28; x0a]%byte)
                (-60)) (Ok tt)); [constructor|].
    vm_compute. reflexivity. }
  apply (rtc_l _ _
           (mkWorld connected_device
              [Log DEBUG "Connecting";
               LinkOpen (mkBleakClient (ByAddress "00:11:22:33:44:55") 30);
               Log DEBUG "Detection callback result: %s"],
            1%nat)).
  { apply (step_yield
             (mkWorld (set_lock false connected_device)
                [Log DEBUG "Connecting";
                 LinkOpen (mkBleakClient (ByAddress "00:11:22:33:44:55") 30);
                 Log DEBUG "Detection callback result: %s"]) 1);
      [reflexivity|lia]. }
  apply rtc_refl.
Defined.


